(** * Persona+ : keyword rules, persona payloads, switching and profile sync

    A shallow embedding of [main.py] and [qq_profile_sync.py].

    Texts.  A Python [str] is embedded as a Rocq [string].  Message
    literals of the plugin are kept as their UTF-8 bytes.  The [str]
    methods the plugin calls ([strip], [lower], [splitlines],
    [partition], [startswith], [in]) are embedded on the ASCII range:
    bytes from 128 on are neither white space nor cased nor line
    boundaries, so the embedding agrees with Python on every text whose
    non-ASCII characters are caseless and are not white space (CJK
    text, for instance).

    Library calls ([json.loads], [str.format], [repr]) are parameters
    of the sections that use them, so that what is proved of the plugin
    holds for any decoder and any formatter; the modules [Json] and
    [Format] give instances that evaluate, for the concrete runs. *)

From Stdlib Require Import ZArith Lia Ascii String.
From stdpp Require Import base option list strings gmap pretty.

Open Scope string_scope.
Open Scope list_scope.
Open Scope nat_scope.

(** ** Python [str] methods *)

Module PyStr.

(** [str.isspace] on one ASCII character: TAB, LF, VT, FF, CR, the four
    separators FS GS RS US, and SPACE. *)
Definition is_space (c : ascii) : bool :=
  let n := nat_of_ascii c in
  ((9 <=? n) && (n <=? 13)) || ((28 <=? n) && (n <=? 31)) || (n =? 32).

Fixpoint lstrip (s : string) : string :=
  match s with
  | "" => ""
  | String c s' => if is_space c then lstrip s' else s
  end.

Fixpoint rstrip (s : string) : string :=
  match s with
  | "" => ""
  | String c s' =>
      match rstrip s' with
      | "" => if is_space c then "" else String c ""
      | r => String c r
      end
  end.

(** [s.strip()], of ASCII white space. *)
Definition strip (s : string) : string := rstrip (lstrip s).

Definition lower_char (c : ascii) : ascii :=
  let n := nat_of_ascii c in
  if (65 <=? n) && (n <=? 90) then ascii_of_nat (n + 32) else c.

(** [s.lower()], on the ASCII letters; every other byte is kept. *)
Fixpoint lower (s : string) : string :=
  match s with
  | "" => ""
  | String c s' => String (lower_char c) (lower s')
  end.

(** [s.startswith(p)] *)
Fixpoint startswith (p s : string) : bool :=
  match p, s with
  | "", _ => true
  | String a p', String b s' => Ascii.eqb a b && startswith p' s'
  | String _ _, "" => false
  end.

(** [needle in hay] *)
Fixpoint contains (needle hay : string) : bool :=
  startswith needle hay ||
  match hay with
  | "" => false
  | String _ hay' => contains needle hay'
  end.

(** [c in s] for a one-character needle. *)
Fixpoint has_char (c : ascii) (s : string) : bool :=
  match s with
  | "" => false
  | String a s' => Ascii.eqb a c || has_char c s'
  end.

(** [s.partition(sep)] for a one-character separator: the text before
    the first occurrence, the separator (empty when absent), the text
    after it. *)
Fixpoint partition (sep : ascii) (s : string) : string * string * string :=
  match s with
  | "" => ("", "", "")
  | String a s' =>
      if Ascii.eqb a sep then ("", String sep "", s')
      else
        let '(l, m, r) := partition sep s' in (String a l, m, r)
  end.

(** [s.split(sep, 1)] for a one-character separator. *)
Definition split1 (sep : ascii) (s : string) : list string :=
  let '(l, m, r) := partition sep s in
  if bool_decide (m = "") then [l] else [l; r].

(** Line boundaries of [str.splitlines] in the ASCII range: LF, VT, FF,
    CR, FS, GS, RS (CR LF counts once). *)
Definition is_linebreak (c : ascii) : bool :=
  let n := nat_of_ascii c in
  ((10 <=? n) && (n <=? 13)) || ((28 <=? n) && (n <=? 30)).

Fixpoint splitlines_from (cur : string) (s : string) : list string :=
  match s with
  | "" => if bool_decide (cur = "") then [] else [cur]
  | String c rest =>
      if is_linebreak c then
        cur ::
        match rest with
        | String d rest' =>
            if Ascii.eqb c "013" && Ascii.eqb d "010"
            then splitlines_from "" rest'
            else splitlines_from "" rest
        | "" => splitlines_from "" rest
        end
      else splitlines_from (cur +:+ String c "") rest
  end.

(** [s.splitlines()] *)
Definition splitlines (s : string) : list string := splitlines_from "" s.

(** The characters of a text: a byte of the form 10xxxxxx continues the
    character before it. *)
Definition is_continuation (c : ascii) : bool :=
  let n := nat_of_ascii c in (128 <=? n) && (n <=? 191).

Fixpoint characters (s : string) : list string :=
  match s with
  | "" => []
  | String c s' =>
      match characters s' with
      | [] => [String c ""]
      | ch :: chs =>
          match ch with
          | String d _ =>
              if is_continuation d then (String c ch) :: chs
              else String c "" :: ch :: chs
          | "" => String c "" :: chs
          end
      end
  end.

(** [s[:n]]: the first [n] characters. *)
Definition slice_to (n : nat) (s : string) : string :=
  foldr String.append "" (take n (characters s)).

End PyStr.

Import PyStr.

(** ** Exceptions, results, log records *)

(** The [ValueError]s the plugin and its persona store raise, by cause. *)
Inductive value_error : Type :=
  | BadMappingFormat (entry : string)   (* no colon: expected keyword:persona_id *)
  | BadPersonaId (entry : string)       (* nothing after the colon *)
  | BadKeyword (entry : string)         (* no keyword before the colon *)
  | UnpackMismatch                      (* tuple unpacking of a wrong length *)
  | EmptyContent                        (* blank payload *)
  | JsonNotObject                       (* JSON that is not an object *)
  | MissingSystemPrompt                 (* no usable system_prompt field *)
  | OddBeginDialogs                     (* begin_dialogs of odd length *)
  | UnsupportedFileType                 (* import file is not txt / md / json *)
  | NoContent                           (* neither text nor a readable file *)
  | PersonaExists (persona_id : string) (* create on an id that is taken *)
  | PersonaNotFound (persona_id : string) (* raised by the persona store *)
  | FormatValueError                    (* malformed str.format template *)
  | UndecodableText.                    (* UnicodeDecodeError: a file that is not UTF-8 *)

Inductive exn : Type :=
  | ValueError (why : value_error)
  | TypeError
  | KeyError
  | IndexError
  | OSError
  | TimeoutError
  | RuntimeError.

Inductive result (A : Type) : Type :=
  | Ok (a : A)
  | Raise (e : exn).
Arguments Ok {A} a.
Arguments Raise {A} e.

Definition is_Ok {A} (r : result A) : bool :=
  match r with Ok _ => true | Raise _ => false end.

#[global] Instance result_ret : MRet result := fun A a => Ok a.
#[global] Instance result_bind : MBind result := fun A B k r =>
  match r with
  | Ok a => k a
  | Raise e => Raise e
  end.

Inductive LogRecord : Type :=
  | LogLegacyMode (entry : string)      (* warning: mode|keyword no longer supported *)
  | LogNotText (rendered : string)      (* warning: keyword_mappings is not a str *)
  | LogBadTimeout                       (* warning: timeout not an integer *)
  | LogNonPositiveTimeout               (* warning: timeout <= 0 *)
  | LogNoConfig                         (* warning: no plugin configuration *)
  | LogParseError (e : exn).            (* error: one mapping entry rejected *)

(** ** Keyword rules *)

Record KeywordMapping : Type := {
  keyword : string;
  persona_id : string;
  case_sensitive : bool;
  reply_template : string
}.

(** The dataclass constructor with its two defaults. *)
Definition KeywordMapping_new (keyword persona_id : string) : KeywordMapping :=
  {| keyword := keyword; persona_id := persona_id;
     case_sensitive := false; reply_template := "" |}.

Definition matches (self : KeywordMapping) (text : string) : bool :=
  if negb (case_sensitive self)
  then contains (lower (keyword self)) (lower text)
  else contains (keyword self) text.

(** [_parse_mapping_entry]: the warnings it logs and its outcome. *)
Definition _parse_mapping_entry (entry : string)
  : list LogRecord * result KeywordMapping :=
  let '(lhs, sep, rhs) := partition ":" entry in
  if bool_decide (sep = "") then ([], Raise (ValueError (BadMappingFormat entry)))
  else
    let persona_id := strip rhs in
    if bool_decide (persona_id = "") then ([], Raise (ValueError (BadPersonaId entry)))
    else
      let keyword_part := strip lhs in
      let '(logs, keyword) :=
        if has_char "|" keyword_part then
          match split1 "|" keyword_part with
          | [_; keyword_raw] => ([LogLegacyMode entry], Ok (strip keyword_raw))
          | _ => ([], Raise (ValueError UnpackMismatch))
          end
        else ([], Ok keyword_part) in
      match keyword with
      | Raise e => (logs, Raise e)
      | Ok keyword =>
          if bool_decide (keyword = "") then (logs, Raise (ValueError (BadKeyword entry)))
          else (logs, Ok (KeywordMapping_new keyword persona_id))
      end.

(** ** Plugin configuration *)

(** [config.get("keyword_mappings", "")]: absent or a [str] (the default
    is the empty text), [None], or a value of another type together
    with its [str()] rendering. *)
Inductive RawMappings : Type :=
  | MappingsNone
  | MappingsText (text : string)
  | MappingsOther (rendered : string).

(** [config.get("manage_wait_timeout_seconds", 120)] as [int()] sees it,
    for the values on which [int()] returns or raises [TypeError] or
    [ValueError], the errors the loading catches. *)
Inductive RawTimeout : Type :=
  | TimeoutInt (n : Z)
  | TimeoutNotInt.

(** The plugin configuration after the defaults of its [get] calls; the
    flags hold the truth value of what is configured. *)
Record AstrBotConfig : Type := {
  cfg_keyword_mappings : RawMappings;
  cfg_auto_switch_scope : string;
  cfg_enable_keyword_switching : bool;
  cfg_require_admin_for_manage : bool;
  cfg_enable_auto_switch_announce : bool;
  cfg_clear_context_on_switch : bool;
  cfg_manage_wait_timeout_seconds : RawTimeout;
  cfg_sync_nickname_on_switch : bool;
  cfg_sync_avatar_on_switch : bool;
  cfg_nickname_template : string
}.

Record PersonaPlus : Type := {
  keyword_mappings : list KeywordMapping;
  auto_switch_scope : string;
  keyword_switch_enabled : bool;
  manage_wait_timeout : Z;
  require_admin_for_manage : bool;
  auto_switch_announce : bool;
  clear_context_on_switch : bool
}.

(** The field values set by [__init__]. *)
Definition PersonaPlus_init : PersonaPlus :=
  {| keyword_mappings := [];
     auto_switch_scope := "conversation";
     keyword_switch_enabled := true;
     manage_wait_timeout := 120;
     require_admin_for_manage := false;
     auto_switch_announce := false;
     clear_context_on_switch := false |}.

Definition mapping_entries (mappings_raw : RawMappings)
  : list string * list LogRecord :=
  match mappings_raw with
  | MappingsNone => ([], [])
  | MappingsText text => (splitlines text, [])
  | MappingsOther rendered => (splitlines rendered, [LogNotText rendered])
  end.

(** One turn of the loop over the entries: [acc] holds [loaded] and the
    log written so far. *)
Definition load_entry (acc : list KeywordMapping * list LogRecord)
    (raw_entry : string) : list KeywordMapping * list LogRecord :=
  let '(loaded, logs) := acc in
  let entry := strip raw_entry in
  if bool_decide (entry = "") || startswith "#" entry then (loaded, logs)
  else
    match _parse_mapping_entry entry with
    | (warns, Ok m) => (loaded ++ [m], logs ++ warns)
    | (warns, Raise exc) => (loaded, logs ++ warns ++ [LogParseError exc])
    end.

Definition load_entries (entries : list string)
  : list KeywordMapping * list LogRecord :=
  fold_left load_entry entries ([], []).

Definition nonempty (s : string) : bool := negb (bool_decide (s = "")).

Definition effective_timeout (raw_timeout : RawTimeout) : Z * list LogRecord :=
  let '(timeout, logs) :=
    match raw_timeout with
    | TimeoutInt n => (n, [])
    | TimeoutNotInt => (120%Z, [LogBadTimeout])
    end in
  if (timeout <=? 0)%Z then (120%Z, logs ++ [LogNonPositiveTimeout])
  else (timeout, logs).

(** The state of a [QQProfileSync] object. *)
Record QQProfileSync : Type := {
  enabled : bool;
  sync_nickname : bool;
  sync_avatar : bool;
  nickname_template : string;
  _last_synced_persona : gmap string string;
  avatar_dir : string
}.

(** [QQProfileSync.__init__]; [data_dir] is the plugin's data directory. *)
Definition QQProfileSync_init (data_dir : string) : QQProfileSync :=
  {| enabled := false; sync_nickname := true; sync_avatar := false;
     nickname_template := "{persona_id}"; _last_synced_persona := ∅;
     avatar_dir := data_dir +:+ "/avatars" |}.

(** [QQProfileSync.load_config] *)
Definition load_config (self : QQProfileSync) (config : option AstrBotConfig)
  : QQProfileSync :=
  match config with
  | None =>
      {| enabled := true || false; sync_nickname := true; sync_avatar := false;
         nickname_template := "{persona_id}";
         _last_synced_persona := _last_synced_persona self;
         avatar_dir := avatar_dir self |}
  | Some config =>
      {| enabled := cfg_sync_nickname_on_switch config || cfg_sync_avatar_on_switch config;
         sync_nickname := cfg_sync_nickname_on_switch config;
         sync_avatar := cfg_sync_avatar_on_switch config;
         nickname_template := cfg_nickname_template config;
         _last_synced_persona := _last_synced_persona self;
         avatar_dir := avatar_dir self |}
  end.

(** What [_load_config] leaves: the fields of the plugin, the state of
    its [qq_sync] object, and the log. *)
Record Loaded : Type := {
  plugin : PersonaPlus;
  sync : QQProfileSync;
  log : list LogRecord
}.

(** [_load_config].  An absent or empty configuration is [None]. *)
Definition _load_config (self : PersonaPlus) (qq_sync : QQProfileSync)
    (config : option AstrBotConfig) : Loaded :=
  match config with
  | None =>
      {| plugin := self; sync := load_config qq_sync None; log := [LogNoConfig] |}
  | Some config =>
      let '(entries, logs0) := mapping_entries (cfg_keyword_mappings config) in
      let '(loaded, logs1) := load_entries entries in
      let '(timeout, logs2) :=
        effective_timeout (cfg_manage_wait_timeout_seconds config) in
      {| plugin :=
           {| keyword_mappings :=
                List.filter (fun m => nonempty (keyword m) && nonempty (persona_id m))
                  loaded;
              auto_switch_scope := cfg_auto_switch_scope config;
              keyword_switch_enabled := cfg_enable_keyword_switching config;
              manage_wait_timeout := timeout;
              require_admin_for_manage := cfg_require_admin_for_manage config;
              auto_switch_announce := cfg_enable_auto_switch_announce config;
              clear_context_on_switch := cfg_clear_context_on_switch config |};
         sync := load_config qq_sync (Some config);
         log := logs0 ++ logs1 ++ logs2 |}
  end.

(** [PersonaPlus.__init__]: the defaults, then [_load_config]. *)
Definition PersonaPlus_new (data_dir : string) (config : option AstrBotConfig) : Loaded :=
  _load_config PersonaPlus_init (QQProfileSync_init data_dir) config.

(** ** Persona payloads *)

#[local] Set Warnings "-register-all".

(** The values [json.loads] returns.  A [float] keeps its source token
    and whether it is nonzero; a [dict] keeps its items in insertion
    order, with distinct keys. *)
Inductive pyval : Type :=
  | PNone
  | PBool (b : bool)
  | PInt (n : Z)
  | PFloat (tok : string) (nonzero : bool)
  | PStr (s : string)
  | PList (l : list pyval)
  | PDict (items : list (string * pyval)).

Definition is_dict (v : pyval) : bool :=
  match v with PDict _ => true | _ => false end.

(** Truth value of a Python object, as [if x:] and [not x] take it. *)
Definition truthy (v : pyval) : bool :=
  match v with
  | PNone => false
  | PBool b => b
  | PInt n => negb (n =? 0)%Z
  | PFloat _ nonzero => nonzero
  | PStr s => nonempty s
  | PList l => negb (bool_decide (l = []))
  | PDict items => match items with [] => false | _ => true end
  end.

(** [d.get(key, default)] *)
Fixpoint dict_get (items : list (string * pyval)) (key : string)
    (default : pyval) : pyval :=
  match items with
  | [] => default
  | (k, v) :: items' => if bool_decide (k = key) then v else dict_get items' key default
  end.

(** [d[key] = v] *)
Fixpoint dict_set (items : list (string * pyval)) (key : string) (v : pyval)
  : list (string * pyval) :=
  match items with
  | [] => [(key, v)]
  | (k, w) :: items' =>
      if bool_decide (k = key) then (k, v) :: items'
      else (k, w) :: dict_set items' key v
  end.

(** [len(x)]: a [TypeError] on what has no length. *)
Definition py_len (v : pyval) : result nat :=
  match v with
  | PStr s => Ok (length (characters s))
  | PList l => Ok (length l)
  | PDict items => Ok (length items)
  | _ => Raise TypeError
  end.

(** [for x in v]: a [TypeError] on what is not iterable. *)
Definition py_iter (v : pyval) : result (list pyval) :=
  match v with
  | PStr s => Ok (map PStr (characters s))
  | PList l => Ok l
  | PDict items => Ok (map (fun kv => PStr (fst kv)) items)
  | _ => Raise TypeError
  end.

(** ** A reference JSON decoder

    The grammar [json.loads] accepts (RFC 8259 with the constants NaN,
    Infinity and -Infinity), as a decoder that evaluates.  It is the
    instance at which the generic statements about
    [_parse_persona_payload] are run on concrete texts.  Code points
    from [\u] escapes are written out in UTF-8 (a lone surrogate in its
    three-byte form).  A float is nonzero when its digits before the
    exponent are not all zero. *)

Module Json.

Definition is_ws (c : ascii) : bool :=
  let n := nat_of_ascii c in (n =? 32) || (n =? 9) || (n =? 10) || (n =? 13).

Fixpoint skip_ws (s : string) : string :=
  match s with
  | String c s' => if is_ws c then skip_ws s' else s
  | "" => ""
  end.

Definition is_digit (c : ascii) : bool :=
  let n := nat_of_ascii c in (48 <=? n) && (n <=? 57).

(** The longest run of digits at the head of [s], and what follows. *)
Fixpoint digits (s : string) : string * string :=
  match s with
  | String c s' =>
      if is_digit c then let '(d, r) := digits s' in (String c d, r)
      else ("", s)
  | "" => ("", "")
  end.

Definition digit_value (c : ascii) : Z := Z.of_nat (nat_of_ascii c - 48).

Fixpoint decimal (acc : Z) (s : string) : Z :=
  match s with
  | String c s' => decimal (10 * acc + digit_value c) s'
  | "" => acc
  end.

Fixpoint all_zero (s : string) : bool :=
  match s with
  | String c s' => Ascii.eqb c "0" && all_zero s'
  | "" => true
  end.

(** The integer part, an optional minus sign then 0 or a run of digits
    that does not start with 0: sign, digits, rest. *)
Definition int_part (s : string) : option (bool * string * string) :=
  let '(neg, s) :=
    match s with
    | String "-" s' => (true, s')
    | _ => (false, s)
    end in
  match s with
  | String "0" s' => Some (neg, "0", s')
  | String c _ =>
      if is_digit c then let '(d, r) := digits s in Some (neg, d, r) else None
  | "" => None
  end.

(** The fraction, a dot and at least one digit, when present. *)
Definition frac_part (s : string) : string * string :=
  match s with
  | String "." s' =>
      match digits s' with
      | ("", _) => ("", s)
      | (d, r) => (d, r)
      end
  | _ => ("", s)
  end.

(** The exponent (e or E, an optional sign, at least one digit), when
    present, as it is written. *)
Definition exp_part (s : string) : string * string :=
  match s with
  | String c s' =>
      if Ascii.eqb c "e" || Ascii.eqb c "E" then
        let '(sign, s'') :=
          match s' with
          | String d t => if Ascii.eqb d "-" || Ascii.eqb d "+"
                          then (String d "", t) else ("", s')
          | "" => ("", s')
          end in
        match digits s'' with
        | ("", _) => ("", s)
        | (d, r) => (String c (sign +:+ d), r)
        end
      else ("", s)
  | "" => ("", s)
  end.

Definition number (s : string) : option (pyval * string) :=
  match int_part s with
  | None => None
  | Some (neg, d, r) =>
      let '(f, r1) := frac_part r in
      let '(e, r2) := exp_part r1 in
      let sign := if neg then "-" else "" in
      if bool_decide (f = "") && bool_decide (e = "")
      then Some (PInt (if neg then - decimal 0 d else decimal 0 d), r2)
      else
        let tok := sign +:+ d +:+ (if bool_decide (f = "") then "" else "." +:+ f) +:+ e in
        Some (PFloat tok (negb (all_zero d && all_zero f)), r2)
  end.

Definition hex_value (c : ascii) : option N :=
  let n := nat_of_ascii c in
  if (48 <=? n) && (n <=? 57) then Some (N.of_nat (n - 48))
  else if (65 <=? n) && (n <=? 70) then Some (N.of_nat (n - 55))
  else if (97 <=? n) && (n <=? 102) then Some (N.of_nat (n - 87))
  else None.

(** Four hexadecimal digits at the head of [s]. *)
Definition hex4 (s : string) : option (N * string) :=
  match s with
  | String a (String b (String c (String d r))) =>
      match hex_value a, hex_value b, hex_value c, hex_value d with
      | Some x, Some y, Some z, Some w => Some (4096 * x + 256 * y + 16 * z + w, r)%N
      | _, _, _, _ => None
      end
  | _ => None
  end.

Definition byte (n : N) : string := String (ascii_of_N n) "".

Definition utf8 (cp : N) : string :=
  (if cp <? 128 then byte cp
   else if cp <? 2048 then byte (192 + cp / 64) +:+ byte (128 + cp mod 64)
   else if cp <? 65536 then
     byte (224 + cp / 4096) +:+ byte (128 + (cp / 64) mod 64) +:+ byte (128 + cp mod 64)
   else
     byte (240 + cp / 262144) +:+ byte (128 + (cp / 4096) mod 64) +:+
     byte (128 + (cp / 64) mod 64) +:+ byte (128 + cp mod 64))%N.

(** A [\uXXXX] escape, [s] starting after the [u]; a high surrogate
    followed by an escaped low surrogate makes one code point. *)
Definition unicode_escape (s : string) : option (string * string) :=
  match hex4 s with
  | None => None
  | Some (uni, r) =>
      if ((55296 <=? uni) && (uni <=? 56319))%N then
        match r with
        | String "\" (String "u" r') =>
            match hex4 r' with
            | Some (uni2, r'') =>
                if ((56320 <=? uni2) && (uni2 <=? 57343))%N
                then Some (utf8 (65536 + (uni - 55296) * 1024 + (uni2 - 56320))%N, r'')
                else Some (utf8 uni, r)
            | None => Some (utf8 uni, r)
            end
        | _ => Some (utf8 uni, r)
        end
      else Some (utf8 uni, r)
  end.

(** A string literal, [s] starting after the opening quote. *)
Fixpoint scanstring (fuel : nat) (s : string) : option (string * string) :=
  match fuel with
  | 0 => None
  | S fuel =>
      match s with
      | "" => None
      | String "034" r => Some ("", r)
      | String "\" r =>
          match r with
          | "" => None
          | String e r' =>
              let simple (c : ascii) :=
                match scanstring fuel r' with
                | Some (t, r'') => Some (String c t, r'')
                | None => None
                end in
              if Ascii.eqb e "034" then simple "034"%char
              else if Ascii.eqb e "\" then simple "\"%char
              else if Ascii.eqb e "/" then simple "/"%char
              else if Ascii.eqb e "b" then simple "008"%char
              else if Ascii.eqb e "f" then simple "012"%char
              else if Ascii.eqb e "n" then simple "010"%char
              else if Ascii.eqb e "r" then simple "013"%char
              else if Ascii.eqb e "t" then simple "009"%char
              else if Ascii.eqb e "u" then
                match unicode_escape r' with
                | Some (u, r'') =>
                    match scanstring fuel r'' with
                    | Some (t, r3) => Some (u +:+ t, r3)
                    | None => None
                    end
                | None => None
                end
              else None
          end
      | String c r =>
          if nat_of_ascii c <? 32 then None
          else
            match scanstring fuel r with
            | Some (t, r') => Some (String c t, r')
            | None => None
            end
      end
  end.

(** [s[n:]] *)
Fixpoint after (n : nat) (s : string) : string :=
  match n, s with
  | S n', String _ s' => after n' s'
  | _, _ => s
  end.

Inductive mode : Type :=
  | Value
  | Elements (acc : list pyval)
  | Members (acc : list (string * pyval)).

(** The scanner.  [Value]: one value at the head of [s].  [Elements]:
    the values of an array after its bracket, up to the closing one.
    [Members]: the members of an object, likewise. *)
Fixpoint scan (fuel : nat) (m : mode) (s : string) : option (pyval * string) :=
  match fuel with
  | 0 => None
  | S fuel =>
      match m with
      | Value =>
          match s with
          | String "034" r =>
              match scanstring (String.length s) r with
              | Some (t, r') => Some (PStr t, r')
              | None => None
              end
          | String "{" r =>
              match skip_ws r with
              | String "}" r' => Some (PDict [], r')
              | r' => scan fuel (Members []) r'
              end
          | String "[" r =>
              match skip_ws r with
              | String "]" r' => Some (PList [], r')
              | r' => scan fuel (Elements []) r'
              end
          | _ =>
              if startswith "null" s then Some (PNone, after 4 s)
              else if startswith "true" s then Some (PBool true, after 4 s)
              else if startswith "false" s then Some (PBool false, after 5 s)
              else
                match number s with
                | Some res => Some res
                | None =>
                    if startswith "NaN" s then Some (PFloat "NaN" true, after 3 s)
                    else if startswith "Infinity" s
                    then Some (PFloat "Infinity" true, after 8 s)
                    else if startswith "-Infinity" s
                    then Some (PFloat "-Infinity" true, after 9 s)
                    else None
                end
          end
      | Elements acc =>
          match scan fuel Value s with
          | None => None
          | Some (v, r) =>
              match skip_ws r with
              | String "]" r' => Some (PList (acc ++ [v]), r')
              | String "," r' => scan fuel (Elements (acc ++ [v])) (skip_ws r')
              | _ => None
              end
          end
      | Members acc =>
          match s with
          | String "034" r =>
              match scanstring (String.length s) r with
              | None => None
              | Some (key, r1) =>
                  match skip_ws r1 with
                  | String ":" r2 =>
                      match scan fuel Value (skip_ws r2) with
                      | None => None
                      | Some (v, r3) =>
                          match skip_ws r3 with
                          | String "}" r4 => Some (PDict (dict_set acc key v), r4)
                          | String "," r4 =>
                              scan fuel (Members (dict_set acc key v)) (skip_ws r4)
                          | _ => None
                          end
                      end
                  | _ => None
                  end
              end
          | _ => None
          end
      end
  end.

(** [json.loads(s)]: one value, white space around it, nothing else. *)
Definition loads (s : string) : option pyval :=
  match scan (2 * String.length s + 2) Value (skip_ws s) with
  | Some (v, r) => if bool_decide (skip_ws r = "") then Some v else None
  | None => None
  end.

(** A stand-in for [repr]: the type name.  The concrete runs below
    never render a float, a list or a dict. *)
Definition type_name (v : pyval) : string :=
  match v with
  | PNone => "NoneType" | PBool _ => "bool" | PInt _ => "int"
  | PFloat _ _ => "float" | PStr _ => "str" | PList _ => "list"
  | PDict _ => "dict"
  end.

End Json.

(** ** A reference [str.format]

    [template.format(persona_id=...)] for templates whose replacement
    fields are bare names: doubled braces stand for one brace, the field
    [{persona_id}] is replaced, another name is a [KeyError], an empty
    or numbered field an [IndexError], a brace without its partner a
    [ValueError]. *)

Module Format.

(** The text up to the closing brace of a field, and what follows. *)
Fixpoint field (s : string) : option (string * string) :=
  match s with
  | "" => None
  | String c s' =>
      if Ascii.eqb c "}" then Some ("", s')
      else if Ascii.eqb c "{" then None
      else match field s' with
           | Some (f, r) => Some (String c f, r)
           | None => None
           end
  end.

Fixpoint format_from (fuel : nat) (template persona_id : string) : result string :=
  match fuel with
  | 0 => Raise RuntimeError
  | S fuel =>
      match template with
      | "" => Ok ""
      | String "{" (String "{" r) => t ← format_from fuel r persona_id; Ok (String "{" t)
      | String "}" (String "}" r) => t ← format_from fuel r persona_id; Ok (String "}" t)
      | String "}" _ => Raise (ValueError FormatValueError)
      | String "{" r =>
          match field r with
          | None => Raise (ValueError FormatValueError)
          | Some (name, r') =>
              if bool_decide (name = "persona_id")
              then t ← format_from fuel r' persona_id; Ok (persona_id +:+ t)
              else if bool_decide (name = "") || Json.is_digit (default "a"%char (head (list_ascii_of_string name)))
              then Raise IndexError
              else Raise KeyError
          end
      | String c r => t ← format_from fuel r persona_id; Ok (String c t)
      end
  end.

Definition format (template persona_id : string) : result string :=
  format_from (S (String.length template)) template persona_id.

End Format.

(** ** The world around the plugin

    The persona store, the conversation registry, the configuration
    store, the file system and the message transport belong to the
    host.  They are embedded by the interface the plugin consumes: a
    state the calls read and change, and a trace of the calls that act
    on the outside. *)

Record Persona : Type := {
  system_prompt : string;
  begin_dialogs : option (list string);
  tools : option (list string)
}.

Record Conversation : Type := {
  cid : string;
  conv_persona : string;
  history : list string
}.

(** One configuration object of the host: the setting the plugin
    writes, the admin list it reads. *)
Record Config : Type := {
  default_personality : option string;
  admins_id : list string
}.

(** What awaiting a platform call does. *)
Inductive outcome : Type :=
  | Returns
  | Throws.

Definition returned (o : outcome) : bool :=
  match o with Returns => true | Throws => false end.

(** The adapter client of an event; [None] when the client has no such
    method ([hasattr] is false). *)
Record Bot : Type := {
  set_qq_profile : option outcome;
  set_qq_avatar : option outcome
}.

Inductive Component : Type :=
  | File (get_file : string)    (* the local path [get_file()] gives *)
  | OtherComponent.

Record AstrMessageEvent : Type := {
  event_id : nat;
  is_aiocqhttp : bool;          (* isinstance(event, AiocqhttpMessageEvent) *)
  platform_id : string;
  self_id : string;
  unified_msg_origin : string;
  message_str : string;
  message : list Component;
  sender_id : string;
  is_admin : bool;
  bot : Bot
}.

(** The texts the plugin replies with. *)
Inductive Reply : Type :=
  | NeedAdmin                          (* this operation needs admin rights *)
  | ErrorText (e : exn)                (* str(exc) *)
  | Deleted (persona_id : string)
  | AlreadyExists (persona_id : string)
  | SendContentPrompt                  (* send the persona text or file now *)
  | CreateFailed (e : exn)
  | CreateSucceeded (persona_id : string)
  | WaitTimedOut                       (* waiting timed out, operation cancelled *)
  | CreateFlowError (e : exn)
  | Plain (text : string).

Inductive Effect : Type :=
  | SetQQProfile (nickname : string) (o : outcome)
  | SetQQAvatar (file : string) (o : outcome)
  | NewConversation (umo persona_id : string)
  | UpdateConversation (umo cid persona_id : string) (clear_history : bool)
  | SaveConfig (scope : option string)
  | CreatePersona (persona_id : string) (p : Persona)
  | DeletePersona (persona_id : string)
  | Send (event : nat) (r : Reply)
  | StopEvent (event : nat).

Record World : Type := {
  personas : gmap string Persona;
  conversations : gmap string Conversation;  (* the current one, by origin *)
  conversations_made : nat;
  default_conf : Config;
  scoped_conf : gmap string Config;
  files : gmap string string;                (* path to contents *)
  qq_sync : QQProfileSync;
  trace : list Effect
}.

Definition with_personas (f : gmap string Persona -> gmap string Persona) (w : World) : World :=
  {| personas := f (personas w); conversations := conversations w;
     conversations_made := conversations_made w; default_conf := default_conf w;
     scoped_conf := scoped_conf w; files := files w; qq_sync := qq_sync w;
     trace := trace w |}.

Definition with_conversations (c : gmap string Conversation) (n : nat) (w : World) : World :=
  {| personas := personas w; conversations := c;
     conversations_made := n; default_conf := default_conf w;
     scoped_conf := scoped_conf w; files := files w; qq_sync := qq_sync w;
     trace := trace w |}.

Definition with_default_conf (c : Config) (w : World) : World :=
  {| personas := personas w; conversations := conversations w;
     conversations_made := conversations_made w; default_conf := c;
     scoped_conf := scoped_conf w; files := files w; qq_sync := qq_sync w;
     trace := trace w |}.

Definition with_scoped_conf (c : gmap string Config) (w : World) : World :=
  {| personas := personas w; conversations := conversations w;
     conversations_made := conversations_made w; default_conf := default_conf w;
     scoped_conf := c; files := files w; qq_sync := qq_sync w;
     trace := trace w |}.

Definition with_files (f : gmap string string) (w : World) : World :=
  {| personas := personas w; conversations := conversations w;
     conversations_made := conversations_made w; default_conf := default_conf w;
     scoped_conf := scoped_conf w; files := f; qq_sync := qq_sync w;
     trace := trace w |}.

Definition with_qq_sync (q : QQProfileSync) (w : World) : World :=
  {| personas := personas w; conversations := conversations w;
     conversations_made := conversations_made w; default_conf := default_conf w;
     scoped_conf := scoped_conf w; files := files w; qq_sync := q;
     trace := trace w |}.

Definition with_trace (t : list Effect) (w : World) : World :=
  {| personas := personas w; conversations := conversations w;
     conversations_made := conversations_made w; default_conf := default_conf w;
     scoped_conf := scoped_conf w; files := files w; qq_sync := qq_sync w;
     trace := t |}.

(** ** Computations: a state over the world, with exceptions *)

Definition M (A : Type) : Type := World -> result A * World.

#[global] Instance M_ret : MRet M := fun A a w => (Ok a, w).
#[global] Instance M_bind : MBind M := fun A B k m w =>
  match m w with
  | (Ok a, w') => k a w'
  | (Raise e, w') => (Raise e, w')
  end.

Definition raise {A} (e : exn) : M A := fun w => (Raise e, w).

(** [try: m], the exception handed to the caller as a value. *)
Definition attempt {A} (m : M A) : M (result A) := fun w =>
  let '(r, w') := m w in (Ok r, w').

Definition lift {A} (r : result A) : M A := fun w => (r, w).

Definition read {A} (f : World -> A) : M A := fun w => (Ok (f w), w).

Definition emit (e : Effect) : M unit := fun w =>
  (Ok tt, with_trace (trace w ++ [e]) w).

(** [event.send(event.plain_result(...))] and [yield event.plain_result(...)] *)
Definition send (event : AstrMessageEvent) (r : Reply) : M unit :=
  emit (Send (event_id event) r).

(** ** The host's interfaces *)

(** [persona_mgr.get_persona]: a [ValueError] when the id is absent. *)
Definition get_persona (persona_id : string) : M Persona := fun w =>
  match personas w !! persona_id with
  | Some p => (Ok p, w)
  | None => (Raise (ValueError (PersonaNotFound persona_id)), w)
  end.

Definition create_persona (persona_id system_prompt : string)
    (begin_dialogs : option (list string)) (tools : option (list string)) : M unit :=
  fun w =>
  match personas w !! persona_id with
  | Some _ => (Raise (ValueError (PersonaExists persona_id)), w)
  | None =>
      let p := {| system_prompt := system_prompt; begin_dialogs := begin_dialogs;
                  tools := tools |} in
      emit (CreatePersona persona_id p) (with_personas (insert persona_id p) w)
  end.

Definition delete_persona (persona_id : string) : M unit := fun w =>
  match personas w !! persona_id with
  | None => (Raise (ValueError (PersonaNotFound persona_id)), w)
  | Some _ => emit (DeletePersona persona_id) (with_personas (delete persona_id) w)
  end.

(** [conversation_manager.get_curr_conversation_id] *)
Definition get_curr_conversation_id (umo : string) : M (option string) :=
  read (fun w => cid <$> conversations w !! umo).

Definition new_conversation (umo persona_id : string) : M unit := fun w =>
  let c := {| cid := "conv-" +:+ pretty (conversations_made w);
              conv_persona := persona_id; history := [] |} in
  emit (NewConversation umo persona_id)
    (with_conversations (<[umo := c]> (conversations w)) (S (conversations_made w)) w).

(** [update_conversation]; [clear_history] stands for [history=[]], its
    absence for [history=None]. *)
Definition update_conversation (umo conversation_id persona_id : string)
    (clear_history : bool) : M unit := fun w =>
  let upd (c : Conversation) :=
    if bool_decide (cid c = conversation_id) then
      {| cid := cid c; conv_persona := persona_id;
         history := if clear_history then [] else history c |}
    else c in
  emit (UpdateConversation umo conversation_id persona_id clear_history)
    (with_conversations (alter upd umo (conversations w)) (conversations_made w) w).

(** [astrbot_config_mgr.get_conf(umo)] *)
Definition get_conf (umo : string) : M (option Config) :=
  read (fun w => scoped_conf w !! umo).

Definition set_default_personality (persona_id : string) (c : Config) : Config :=
  {| default_personality := Some persona_id; admins_id := admins_id c |}.

(** The write to [provider_settings["default_personality"]] followed by
    [save_config()], on the configuration of an origin. *)
Definition save_scoped_personality (umo persona_id : string) : M unit := fun w =>
  emit (SaveConfig (Some umo))
    (with_scoped_conf (alter (set_default_personality persona_id) umo (scoped_conf w)) w).

(** The same on the default configuration. *)
Definition save_default_personality (persona_id : string) : M unit := fun w =>
  emit (SaveConfig None)
    (with_default_conf (set_default_personality persona_id (default_conf w)) w).

(** [Path(p).name] and [Path(p).suffix] *)
Fixpoint basename (s : string) : string :=
  match s with
  | "" => ""
  | String c s' =>
      if has_char "/" s' then basename s'
      else if Ascii.eqb c "/" then s' else s
  end.

Fixpoint from_last_dot (name : string) : string :=
  match name with
  | "" => ""
  | String c r =>
      if has_char "." r then from_last_dot r
      else if Ascii.eqb c "." then name else ""
  end.

Definition suffix (path : string) : string :=
  match basename path with
  | "" => ""
  | String _ r =>
      let e := from_last_dot r in
      if bool_decide (e = ".") then "" else e
  end.

(** What the strict UTF-8 decoder accepts: well formed sequences in
    their shortest form, no surrogates, nothing above U+10FFFF. *)
Fixpoint utf8_valid (s : string) : bool :=
  let continues (c : ascii) := is_continuation c in
  let within (lo hi : nat) (c : ascii) :=
    (lo <=? nat_of_ascii c) && (nat_of_ascii c <=? hi) in
  match s with
  | "" => true
  | String a s1 =>
      if nat_of_ascii a <? 128 then utf8_valid s1
      else
        match s1 with
        | "" => false
        | String b s2 =>
            if within 194 223 a then continues b && utf8_valid s2
            else
              match s2 with
              | "" => false
              | String c s3 =>
                  if within 224 239 a then
                    (if nat_of_ascii a =? 224 then within 160 191 b
                     else if nat_of_ascii a =? 237 then within 128 159 b
                     else continues b)
                    && continues c && utf8_valid s3
                  else
                    match s3 with
                    | "" => false
                    | String d s4 =>
                        within 240 244 a &&
                        (if nat_of_ascii a =? 240 then within 144 191 b
                         else if nat_of_ascii a =? 244 then within 128 143 b
                         else continues b)
                        && continues c && continues d && utf8_valid s4
                    end
              end
        end
  end.

(** The newlines of a file read in text mode: CR LF and a lone CR
    become LF. *)
Fixpoint universal_newlines (s : string) : string :=
  match s with
  | "" => ""
  | String c s1 =>
      if Ascii.eqb c "013" then
        match s1 with
        | String d s2 =>
            if Ascii.eqb d "010" then String "010" (universal_newlines s2)
            else String "010" (universal_newlines s1)
        | "" => String "010" ""
        end
      else String c (universal_newlines s1)
  end.

(** Reading a file in binary mode. *)
Definition read_bytes (path : string) : M string := fun w =>
  match files w !! path with
  | Some data => (Ok data, w)
  | None => (Raise OSError, w)
  end.

(** [path.read_text(encoding="utf-8")]: the bytes decoded, with the
    newlines of the text mode; a [UnicodeDecodeError], which is a
    [ValueError], when they are not UTF-8. *)
Definition read_text (path : string) : M string := fun w =>
  match files w !! path with
  | Some data =>
      if utf8_valid data then (Ok (universal_newlines data), w)
      else (Raise (ValueError UndecodableText), w)
  | None => (Raise OSError, w)
  end.

(** [path.exists()] *)
Definition path_exists (path : string) : M bool :=
  read (fun w => bool_decide (is_Some (files w !! path))).

(** What [session_waiter] reports to the task that awaits it: the next
    event of the same session, handed to the handler; or the deadline
    passing first; or another failure. *)
Inductive WaitOutcome : Type :=
  | Delivered (next_event : AstrMessageEvent)
  | Expired
  | Failed (e : exn).

Section Plugin.

(** [json.loads]: [None] stands for [JSONDecodeError]. *)
Variable json_loads : string -> option pyval.

(** [repr] of a float, a list or a dict. *)
Variable py_repr : pyval -> string.

(** [template.format(persona_id=...)] *)
Variable py_format : string -> string -> result string.

(** [str(x)] *)
Definition py_str (v : pyval) : string :=
  match v with
  | PStr s => s
  | PNone => "None"
  | PBool true => "True"
  | PBool false => "False"
  | PInt n => pretty n
  | PFloat _ _ | PList _ | PDict _ => py_repr v
  end.

(** *** [main.py]: the payload parser *)

Definition _parse_persona_payload (raw_text : string)
  : result (string * list string) :=
  let raw_text := strip raw_text in
  if negb (nonempty raw_text) then Raise (ValueError EmptyContent)
  else
    match json_loads raw_text with
    | None => Ok (raw_text, [])
    | Some payload =>
        match payload with
        | PDict items =>
            let prompt := dict_get items "system_prompt" PNone in
            if negb (truthy prompt) then Raise (ValueError MissingSystemPrompt)
            else
              let begin_dialogs := dict_get items "begin_dialogs" (PList []) in
              let parity_check : result unit :=
                if truthy begin_dialogs then
                  n ← py_len begin_dialogs;
                  if negb (n mod 2 =? 0) then Raise (ValueError OddBeginDialogs)
                  else Ok tt
                else Ok tt in
              parity_check;;
              xs ← py_iter begin_dialogs;
              Ok (py_str prompt, map py_str xs)
        | _ => Raise (ValueError JsonNotObject)
        end
    end.

(** *** [qq_profile_sync.py] *)

Definition format_nickname (self : QQProfileSync) (persona_id : string) : string :=
  let nickname :=
    match py_format (nickname_template self) persona_id with
    | Ok nickname => nickname
    | Raise _ => persona_id
    end in
  if nonempty nickname then slice_to 60 nickname else slice_to 60 persona_id.

(** [avatar_dir / (persona_id + .jpg)], for a persona id that is a plain
    file name; pathlib drops [avatar_dir] when the id begins with a
    slash. *)
Definition get_avatar_path (self : QQProfileSync) (persona_id : string) : string :=
  avatar_dir self +:+ "/" +:+ persona_id +:+ ".jpg".

Definition set_cache (c : gmap string string) (self : QQProfileSync) : QQProfileSync :=
  {| enabled := enabled self; sync_nickname := sync_nickname self;
     sync_avatar := sync_avatar self; nickname_template := nickname_template self;
     _last_synced_persona := c; avatar_dir := avatar_dir self |}.

Definition reset_persona_cache (self : QQProfileSync) (persona_id : string)
  : QQProfileSync :=
  let to_remove :=
    (map_to_list (_last_synced_persona self)).*1 in
  let to_remove :=
    List.filter (fun key => bool_decide (_last_synced_persona self !! key = Some persona_id))
      to_remove in
  set_cache (foldl (fun c key => delete key c) (_last_synced_persona self) to_remove) self.

Definition delete_avatar (persona_id : string) : M unit := fun w =>
  let self := qq_sync w in
  let avatar_path := get_avatar_path self persona_id in
  let w :=
    if bool_decide (is_Some (files w !! avatar_path))
    then with_files (delete avatar_path (files w)) w else w in
  (Ok tt, with_qq_sync (reset_persona_cache self persona_id) w).

Definition bot_key_of (event : AstrMessageEvent) : string :=
  platform_id event +:+ ":" +:+ self_id event.

Definition maybe_sync_profile (event : AstrMessageEvent) (persona_id : string)
    (force : bool) : M unit := fun w =>
  let self := qq_sync w in
  if negb (is_aiocqhttp event) then (Ok tt, w)
  else if negb (enabled self || force) then (Ok tt, w)
  else
    let sync_nickname := force || sync_nickname self in
    let sync_avatar := force || sync_avatar self in
    if negb (sync_nickname || sync_avatar) then (Ok tt, w)
    else
      let bot_key := bot_key_of event in
      if negb force &&
         bool_decide (_last_synced_persona self !! bot_key = Some persona_id)
      then (Ok tt, w)
      else
        let push_nickname : M bool :=
          if sync_nickname then
            let nickname := format_nickname self persona_id in
            match set_qq_profile (bot event) with
            | Some o => emit (SetQQProfile nickname o);; mret (returned o)
            | None => mret false
            end
          else mret false in
        let push_avatar : M bool :=
          if sync_avatar then
            let avatar_path := get_avatar_path self persona_id in
            present ← path_exists avatar_path;
            if present : bool then
              match set_qq_avatar (bot event) with
              | Some o => emit (SetQQAvatar avatar_path o);; mret (returned o)
              | None => mret false
              end
            else mret false
          else mret false in
        let remember : M unit := fun w =>
          (Ok tt,
           with_qq_sync
             (set_cache (<[bot_key := persona_id]> (_last_synced_persona (qq_sync w)))
                (qq_sync w)) w) in
        (nickname_applied ← push_nickname;
         avatar_synced ← push_avatar;
         if nickname_applied || avatar_synced then remember else mret tt) w.

Definition clear_cache (self : QQProfileSync) : QQProfileSync := set_cache ∅ self.

(** *** [main.py]: the plugin *)

Variable self : PersonaPlus.

Definition _read_file_component (component : Component) : M (option string) :=
  match component with
  | File content_path =>
      if negb (nonempty content_path) then mret None
      else
        let ext := lower (suffix content_path) in
        if negb (bool_decide (ext ∈ [".txt"; ".md"; ".json"]))
        then raise (ValueError UnsupportedFileType)
        else data ← read_text content_path; mret (Some data)
  | OtherComponent => mret None
  end.

Fixpoint first_file_content (components : list Component) : M string :=
  match components with
  | [] => raise (ValueError NoContent)
  | component :: rest =>
      data ← _read_file_component component;
      match data with
      | Some data => if nonempty data then mret data else first_file_content rest
      | None => first_file_content rest
      end
  end.

Definition _extract_persona_from_event (event : AstrMessageEvent) : M string :=
  if nonempty (strip (message_str event)) then mret (message_str event)
  else first_file_content (message event).

Definition _create_persona (persona_id system_prompt : string)
    (begin_dialogs : list string) (tools : option (list string)) : M unit :=
  found ← attempt (get_persona persona_id);
  match found with
  | Raise (ValueError _) =>
      create_persona persona_id system_prompt
        (match begin_dialogs with [] => None | _ => Some begin_dialogs end) tools
  | Raise e => raise e
  | Ok _ => raise (ValueError (PersonaExists persona_id))
  end.

(** [update_conversation] on the current conversation of [umo], when
    there is one. *)
Definition update_current (umo persona_id : string) (clear_history : bool) : M unit :=
  conversation_id ← get_curr_conversation_id umo;
  match conversation_id with
  | Some conversation_id =>
      if nonempty conversation_id
      then update_conversation umo conversation_id persona_id clear_history
      else mret tt
  | None => mret tt
  end.

Definition _switch_persona (event : AstrMessageEvent) (persona_id : string)
    (announce : option string) : M (option Reply) :=
  get_persona persona_id;;
  let umo := unified_msg_origin event in
  let scope := auto_switch_scope self in
  let history_reset := clear_context_on_switch self in
  let by_scope : M unit :=
    if bool_decide (scope = "conversation") then
      conversation_id ← get_curr_conversation_id umo;
      match conversation_id with
      | Some conversation_id =>
          if nonempty conversation_id
          then update_conversation umo conversation_id persona_id history_reset
          else new_conversation umo persona_id
      | None => new_conversation umo persona_id
      end
    else if bool_decide (scope = "session") then
      config ← get_conf umo;
      (match config with
       | Some _ => save_scoped_personality umo persona_id
       | None => mret tt
       end);;
      update_current umo persona_id history_reset
    else if bool_decide (scope = "global") then
      save_default_personality persona_id;;
      update_current umo persona_id history_reset
    else mret tt in
  by_scope;;
  maybe_sync_profile event persona_id false;;
  match announce with
  | Some text => if nonempty text then mret (Some (Plain text)) else mret None
  | None => mret None
  end.

Definition _collect_admin_ids (w : World) (umo : string) : list string :=
  admins_id (default_conf w) ++
  (if nonempty umo then
     match scoped_conf w !! umo with
     | Some scoped => admins_id scoped
     | None => []
     end
   else []).

Definition _has_manage_permission (w : World) (event : AstrMessageEvent) : bool :=
  if is_admin event then true
  else bool_decide (sender_id event ∈ _collect_admin_ids w (unified_msg_origin event)).

Definition _has_permission (w : World) (event : AstrMessageEvent)
    (manage_operation force_admin : bool) : bool :=
  let need_admin := force_admin || (manage_operation && require_admin_for_manage self) in
  if negb need_admin then true else _has_manage_permission w event.

Definition cmd_delete (event : AstrMessageEvent) (persona_id : string) : M unit :=
  allowed ← read (fun w => _has_permission w event true true);
  if negb allowed then send event NeedAdmin
  else
    deleted ← attempt (delete_persona persona_id);
    match deleted with
    | Raise (ValueError why) => send event (ErrorText (ValueError why))
    | Raise e => raise e
    | Ok _ => send event (Deleted persona_id)
    end.

(** The handler [create_waiter] runs on the next event; its [finally]
    stops the wait, so it runs once. *)
Definition create_waiter (persona_id : string) (next_event : AstrMessageEvent) : M unit :=
  done ← attempt
    (raw_text ← _extract_persona_from_event next_event;
     parsed ← lift (_parse_persona_payload raw_text);
     _create_persona persona_id parsed.1 parsed.2 None);
  match done with
  | Raise e => send next_event (CreateFailed e)
  | Ok _ => send next_event (CreateSucceeded persona_id)
  end.

(** The task [wait_for_create], given what the wait reports. *)
Definition wait_for_create (event : AstrMessageEvent) (persona_id : string)
    (waited : WaitOutcome) : M unit :=
  done ← attempt
    (match waited with
     | Delivered next_event => create_waiter persona_id next_event
     | Expired => raise TimeoutError
     | Failed e => raise e
     end);
  match done with
  | Ok _ => mret tt
  | Raise TimeoutError => send event WaitTimedOut
  | Raise e => send event (CreateFlowError e)
  end.

(** [cmd_create] up to the point where it starts the task; [true]
    when it did. *)
Definition cmd_create (event : AstrMessageEvent) (persona_id : string) : M bool :=
  allowed ← read (fun w => _has_permission w event true false);
  if negb allowed then send event NeedAdmin;; mret false
  else
    found ← attempt (get_persona persona_id);
    match found with
    | Raise (ValueError _) =>
        send event SendContentPrompt;;
        emit (StopEvent (event_id event));;
        mret true
    | Raise e => raise e
    | Ok _ => send event (AlreadyExists persona_id);; mret false
    end.

(** The command and its task, run one after the other. *)
Definition create_session (event : AstrMessageEvent) (persona_id : string)
    (waited : WaitOutcome) : M unit :=
  started ← cmd_create event persona_id;
  if started : bool then wait_for_create event persona_id waited else mret tt.

Definition switched_text (persona_id : string) : string :=
  "已切换人格为 " +:+ persona_id.

(** The loop of [on_message] over the rules. *)
Fixpoint scan_mappings (event : AstrMessageEvent) (text : string)
    (mappings : list KeywordMapping) : M (option Reply) :=
  match mappings with
  | [] => mret None
  | mapping :: rest =>
      if matches mapping text then
        announce ←
          (if nonempty (reply_template mapping) then
             text ← lift (py_format (reply_template mapping) (persona_id mapping));
             mret (Some text)
           else if auto_switch_announce self then
             mret (Some (switched_text (persona_id mapping)))
           else mret None);
        _switch_persona event (persona_id mapping) announce
      else scan_mappings event text rest
  end.

(** [on_message]: the reply it yields, if any. *)
Definition on_message (event : AstrMessageEvent) : M (option Reply) :=
  let text := message_str event in
  if negb (nonempty text) || negb (keyword_switch_enabled self) ||
     bool_decide (keyword_mappings self = [])
  then mret None
  else scan_mappings event text (keyword_mappings self).

End Plugin.

(** ** The mapping entries, as the specification words them

    One line of the configuration text is skipped (blank or comment),
    dropped with an error (no colon, nothing after the first colon, no
    keyword before it) or kept as a rule. *)

Inductive entry_outcome : Type :=
  | Skipped
  | Dropped (why : value_error)
  | Kept (m : KeywordMapping).

(** The keyword of the text before the colon: that text trimmed, or,
    in the legacy form [mode|keyword], what follows the first bar,
    trimmed. *)
Inductive spec_keyword (lhs : string) : string -> Prop :=
  | spec_keyword_plain :
      has_char "|" (strip lhs) = false ->
      spec_keyword lhs (strip lhs)
  | spec_keyword_legacy mode rest :
      strip lhs = mode +:+ "|" +:+ rest ->
      has_char "|" mode = false ->
      spec_keyword lhs (strip rest).

Inductive spec_entry (line : string) : entry_outcome -> Prop :=
  | spec_blank :
      strip line = "" ->
      spec_entry line Skipped
  | spec_comment :
      startswith "#" (strip line) = true ->
      spec_entry line Skipped
  | spec_no_colon :
      strip line <> "" -> startswith "#" (strip line) = false ->
      has_char ":" (strip line) = false ->
      spec_entry line (Dropped (BadMappingFormat (strip line)))
  | spec_no_persona lhs rhs :
      strip line <> "" -> startswith "#" (strip line) = false ->
      strip line = lhs +:+ ":" +:+ rhs -> has_char ":" lhs = false ->
      strip rhs = "" ->
      spec_entry line (Dropped (BadPersonaId (strip line)))
  | spec_no_keyword lhs rhs :
      strip line <> "" -> startswith "#" (strip line) = false ->
      strip line = lhs +:+ ":" +:+ rhs -> has_char ":" lhs = false ->
      strip rhs <> "" -> spec_keyword lhs "" ->
      spec_entry line (Dropped (BadKeyword (strip line)))
  | spec_rule lhs rhs kw :
      strip line <> "" -> startswith "#" (strip line) = false ->
      strip line = lhs +:+ ":" +:+ rhs -> has_char ":" lhs = false ->
      strip rhs <> "" -> spec_keyword lhs kw -> kw <> "" ->
      spec_entry line
        (Kept {| keyword := kw; persona_id := strip rhs;
                 case_sensitive := false; reply_template := "" |}).

Definition kept_rules (outcomes : list entry_outcome) : list KeywordMapping :=
  omap (fun o => match o with Kept m => Some m | _ => None end) outcomes.

Definition dropped_errors (outcomes : list entry_outcome) : list exn :=
  omap (fun o => match o with Dropped why => Some (ValueError why) | _ => None end)
    outcomes.

Definition parse_errors (logs : list LogRecord) : list exn :=
  omap (fun l => match l with LogParseError e => Some e | _ => None end) logs.

(** The announcement of a matching rule, as the specification words
    it: the rule's own template with the persona id filled in; failing
    a template, the generic text when announcing is switched on;
    failing that, none. *)
Definition spec_announce (py_format : string -> string -> result string)
    (self : PersonaPlus) (m : KeywordMapping) : result (option string) :=
  if bool_decide (reply_template m <> "")
  then
    match py_format (reply_template m) (persona_id m) with
    | Ok text => Ok (Some text)
    | Raise e => Raise e
    end
  else if auto_switch_announce self then Ok (Some (switched_text (persona_id m)))
  else Ok None.

(** The configuration in which every key is absent, so that every
    [get] gives its default, but for the mapping text. *)
Definition config_with_mappings (text : string) : AstrBotConfig :=
  {| cfg_keyword_mappings := MappingsText text;
     cfg_auto_switch_scope := "conversation";
     cfg_enable_keyword_switching := true;
     cfg_require_admin_for_manage := false;
     cfg_enable_auto_switch_announce := false;
     cfg_clear_context_on_switch := false;
     cfg_manage_wait_timeout_seconds := TimeoutInt 120;
     cfg_sync_nickname_on_switch := true;
     cfg_sync_avatar_on_switch := false;
     cfg_nickname_template := "{persona_id}" |}.

Definition LF : string := String "010" "".

(** ** Pushes in the trace *)

(** A push that went through. *)
Definition push_succeeded (e : Effect) : bool :=
  match e with
  | SetQQProfile _ o | SetQQAvatar _ o => returned o
  | _ => false
  end.

Definition is_push (e : Effect) : bool :=
  match e with
  | SetQQProfile _ _ | SetQQAvatar _ _ => true
  | _ => false
  end.

(** What a call of [maybe_sync_profile] adds to the trace, and what it
    leaves of the world: everything but the trace and the cache. *)
Record sync_step (w w' : World) (pushes : list Effect) : Prop := {
  step_trace : trace w' = trace w ++ pushes;
  step_pushes : forallb is_push pushes = true;
  step_personas : personas w' = personas w;
  step_conversations : conversations w' = conversations w;
  step_files : files w' = files w;
  step_settings :
    set_cache ∅ (qq_sync w') = set_cache ∅ (qq_sync w)
}.

(** Rules as the configuration parser makes them. *)
Definition has_defaults (m : KeywordMapping) : Prop :=
  case_sensitive m = false /\ reply_template m = "".

(** ** Concrete worlds, events and texts *)

(** One QQ bot, one admin, one persona already synced. *)
Definition qq_bot : Bot :=
  {| set_qq_profile := Some Returns; set_qq_avatar := Some Returns |}.

Definition admin_event (text : string) : AstrMessageEvent :=
  {| event_id := 1; is_aiocqhttp := true; platform_id := "aiocqhttp";
     self_id := "10001"; unified_msg_origin := "aiocqhttp:GroupMessage:42";
     message_str := text; message := []; sender_id := "7"; is_admin := true;
     bot := qq_bot |}.

Definition bot_a : Persona :=
  {| system_prompt := "You are bot A."; begin_dialogs := None; tools := None |}.

Definition synced_world : World :=
  {| personas := {[ "bot_a" := bot_a ]};
     conversations := ∅; conversations_made := 0;
     default_conf := {| default_personality := None; admins_id := [] |};
     scoped_conf := ∅; files := ∅;
     qq_sync :=
       {| enabled := true; sync_nickname := true; sync_avatar := false;
          nickname_template := "{persona_id}";
          _last_synced_persona := {[ "aiocqhttp:10001" := "bot_a" ]};
          avatar_dir := "data/avatars" |};
     trace := [] |}.

(** Delete [persona_id], create it again, switch to it; [purge] says
    whether [delete_avatar] is called after the deletion.  The result
    is the pushes of the switch. *)
Definition delete_recreate_switch (purge : bool) : list Effect :=
  let event := admin_event "hello" in
  let w1 := (cmd_delete PersonaPlus_init event "bot_a" synced_world).2 in
  let w1 := if purge then (delete_avatar "bot_a" w1).2 else w1 in
  let w2 := (_create_persona "bot_a" "You are bot A again." [] None w1).2 in
  let w3 := (_switch_persona Format.format PersonaPlus_init event "bot_a" None w2).2 in
  List.filter is_push (trace w3).

Definition quoted (s : string) : string := String "034" (s +:+ String "034" "").

(** The text [{"system_prompt": "X", "begin_dialogs": ["hi"]}]. *)
Definition odd_payload : string :=
  "{" +:+ quoted "system_prompt" +:+ ": " +:+ quoted "X" +:+ ", " +:+
  quoted "begin_dialogs" +:+ ": [" +:+ quoted "hi" +:+ "]}".

(** The text [{"system_prompt": 5}]. *)
Definition number_prompt_payload : string :=
  "{" +:+ quoted "system_prompt" +:+ ": 5}".

(** Three rules, the second and the third of which match the text
    "hello from hell". *)
Definition bye_rule : KeywordMapping := KeywordMapping_new "bye" "sad".

Definition hello_rule : KeywordMapping :=
  {| keyword := "Hello"; persona_id := "cheerful"; case_sensitive := false;
     reply_template := "Now {persona_id}!" |}.

Definition hell_rule : KeywordMapping :=
  {| keyword := "hell"; persona_id := "grumpy"; case_sensitive := true;
     reply_template := "" |}.

Definition greeter : PersonaPlus :=
  {| keyword_mappings := [bye_rule; hello_rule; hell_rule];
     auto_switch_scope := "conversation";
     keyword_switch_enabled := true;
     manage_wait_timeout := 120;
     require_admin_for_manage := false;
     auto_switch_announce := true;
     clear_context_on_switch := false |}.

Definition greeter_world : World :=
  {| personas := {[ "cheerful" := bot_a; "grumpy" := bot_a; "sad" := bot_a ]};
     conversations := ∅; conversations_made := 0;
     default_conf := {| default_personality := None; admins_id := [] |};
     scoped_conf := ∅; files := ∅;
     qq_sync := load_config (QQProfileSync_init "data") None;
     trace := [] |}.

(** The plugin loaded from the two lines hello:cheerful and hi:cheerful. *)
Definition two_rules : PersonaPlus :=
  plugin (PersonaPlus_new "data"
            (Some (config_with_mappings ("hello:cheerful" +:+ LF +:+ "hi:cheerful")))).

(** The world of one bot and one persona, nothing synced yet. *)
Definition unsynced_world : World :=
  with_qq_sync (clear_cache (qq_sync synced_world)) synced_world.



(** ** More of the plugin: update, view, avatars

    Replies for which [Reply] has no name are given as their text. *)

(** [sep.join(parts)] *)
Fixpoint join (sep : string) (parts : list string) : string :=
  match parts with
  | [] => ""
  | [p] => p
  | p :: rest => p +:+ sep +:+ join sep rest
  end.

(** The lines of [cmd_view] for the preset dialogs, [idx] counting from
    one as [enumerate(begin_dialogs, start=1)] does. *)
Fixpoint dialog_lines (idx : nat) (dialogs : list string) : list string :=
  match dialogs with
  | [] => []
  | dialog :: rest =>
      let role := if idx mod 2 =? 1 then "用户" else "助手" in
      ("[" +:+ role +:+ "] " +:+ dialog) :: dialog_lines (S idx) rest
  end.

(** The lines of [cmd_view]; a persona of the store carries the id it
    is stored under, so [persona.persona_id] is [persona_id]. *)
Definition view_lines (persona_id : string) (persona : Persona) : list string :=
  let begin_dialogs := default [] (begin_dialogs persona) in
  ["人格 " +:+ persona_id; "----------------"; "System Prompt:";
   system_prompt persona] ++
  (match begin_dialogs with
   | [] => []
   | _ => (LF +:+ "预设对话：") :: dialog_lines 1 begin_dialogs
   end) ++
  [match tools persona with
   | None => LF +:+ "工具：使用全部可用工具"
   | Some [] => LF +:+ "工具：已禁用所有工具"
   | Some tools => LF +:+ "工具：" +:+ join ", " tools
   end].

(** The parts of a message as [extract_image_component] tells them
    apart; an image carries its [url] and a file the path [get_file()]
    gives, empty when there is none. *)
Inductive Part : Type :=
  | ImagePart (url : string)
  | FilePart (get_file : string)
  | ReplyPart (chain : list Part)
  | OtherPart.

(** [isinstance(component, (Comp.Image, Comp.File))] *)
Definition is_media (p : Part) : bool :=
  match p with
  | ImagePart _ | FilePart _ => true
  | _ => false
  end.

(** [extract_image_component], on [event.get_messages()]. *)
Fixpoint extract_image_component (messages : list Part) : option Part :=
  match messages with
  | [] => None
  | component :: rest =>
      if is_media component then Some component
      else
        match component with
        | ReplyPart chain =>
            match List.find is_media chain with
            | Some reply_component => Some reply_component
            | None => extract_image_component rest
            end
        | _ => extract_image_component rest
        end
  end.

(** The [ValueError]s of [save_avatar_from_event], by cause. *)
Inductive avatar_refusal : Type :=
  | NoImageFound          (* no image or file attached or quoted *)
  | FileFetchFailed       (* get_file() gave nothing *)
  | NotAnImageFile        (* not jpg / jpeg / png / gif / webp *)
  | UnsupportedMessage.   (* an image without url *)

(** What [save_avatar_from_event] gives: the path written, or the
    [ValueError] it raises. *)
Inductive saved : Type :=
  | Saved (avatar_path : string)
  | Refused (why : avatar_refusal).

Section MorePlugin.

Variable json_loads : string -> option pyval.
Variable py_repr : pyval -> string.

(** [str(exc)] *)
Variable exc_text : exn -> string.

(** What the host's [update_persona] makes of the stored persona, given
    the new prompt and dialogs. *)
Variable updated : Persona -> string -> option (list string) -> Persona.

(** The response to [session.get(url)], or the failure of the request:
    the status, and what [resp.read()] gives when it is awaited, the
    body or a failure of its own. *)
Variable http_get : string -> result (nat * result string).

Variable self : PersonaPlus.

(** [persona_mgr.update_persona]: a [ValueError] when the id is absent. *)
Definition update_persona (persona_id system_prompt : string)
    (begin_dialogs : option (list string)) : M unit := fun w =>
  match personas w !! persona_id with
  | None => (Raise (ValueError (PersonaNotFound persona_id)), w)
  | Some p =>
      (Ok tt, with_personas (insert persona_id (updated p system_prompt begin_dialogs)) w)
  end.

(** The handler [update_waiter]. *)
Definition update_waiter (persona_id : string) (next_event : AstrMessageEvent) : M unit :=
  done ← attempt
    (raw_text ← _extract_persona_from_event next_event;
     parsed ← lift (_parse_persona_payload json_loads py_repr raw_text);
     update_persona persona_id parsed.1
       (match parsed.2 with [] => None | _ => Some parsed.2 end));
  match done with
  | Raise e => send next_event (Plain ("更新失败：" +:+ exc_text e))
  | Ok _ => send next_event (Plain ("人格 " +:+ persona_id +:+ " 更新成功。"))
  end.

(** The task [wait_for_update], given what the wait reports. *)
Definition wait_for_update (event : AstrMessageEvent) (persona_id : string)
    (waited : WaitOutcome) : M unit :=
  done ← attempt
    (match waited with
     | Delivered next_event => update_waiter persona_id next_event
     | Expired => raise TimeoutError
     | Failed e => raise e
     end);
  match done with
  | Ok _ => mret tt
  | Raise TimeoutError => send event WaitTimedOut
  | Raise e => send event (Plain ("更新流程异常：" +:+ exc_text e))
  end.

(** [cmd_update] up to the point where it starts the task; [true] when
    it did. *)
Definition cmd_update (event : AstrMessageEvent) (persona_id : string) : M bool :=
  allowed ← read (fun w => _has_permission self w event true false);
  if negb allowed then send event NeedAdmin;; mret false
  else
    found ← attempt (get_persona persona_id);
    match found with
    | Raise (ValueError _) =>
        send event (Plain ("未找到人格 " +:+ persona_id +:+ "，请先创建该人格。"));;
        mret false
    | Raise e => raise e
    | Ok _ =>
        send event (Plain "请发送新的人格内容或文件 (txt/md/json)，将在收到后立即更新。");;
        emit (StopEvent (event_id event));;
        mret true
    end.

(** [cmd_view] *)
Definition cmd_view (event : AstrMessageEvent) (persona_id : string) : M unit :=
  allowed ← read (fun w => _has_permission self w event false false);
  if negb allowed then send event NeedAdmin
  else
    found ← attempt (get_persona persona_id);
    match found with
    | Raise (ValueError why) => send event (ErrorText (ValueError why))
    | Raise e => raise e
    | Ok persona => send event (Plain (join LF (view_lines persona_id persona)))
    end.

(** Writing [data] to [path], the file made or replaced. *)
Definition write_file (path data : string) : M unit := fun w =>
  (Ok tt, with_files (<[path := data]> (files w)) w).

(** [download_and_save_avatar]: the file is opened for writing, and
    so made or emptied, before the body is read. *)
Definition download_and_save_avatar (url save_path : string) : M unit := fun w =>
  match http_get url with
  | Raise e => (Raise e, w)
  | Ok (status, body) =>
      if negb (status =? 200) then (Raise RuntimeError, w)
      else
        let opened := with_files (<[save_path := ""]> (files w)) w in
        match body with
        | Raise e => (Raise e, opened)
        | Ok data => write_file save_path data opened
        end
  end.

(** [save_avatar_from_event], on [event.get_messages()]. *)
Definition save_avatar_from_event (messages : list Part) (persona_id : string) : M saved :=
  match extract_image_component messages with
  | None => mret (Refused NoImageFound)
  | Some image_component =>
      avatar_path ← read (fun w => get_avatar_path (qq_sync w) persona_id);
      match image_component with
      | ImagePart url =>
          if nonempty url then
            download_and_save_avatar url avatar_path;; mret (Saved avatar_path)
          else mret (Refused UnsupportedMessage)
      | FilePart temp_path =>
          if negb (nonempty temp_path) then mret (Refused FileFetchFailed)
          else if negb (bool_decide (lower (suffix temp_path) ∈
                                       [".jpg"; ".jpeg"; ".png"; ".gif"; ".webp"]))
          then mret (Refused NotAnImageFile)
          else
            data ← read_bytes temp_path;
            write_file avatar_path data;;
            mret (Saved avatar_path)
      | _ => mret (Refused UnsupportedMessage)
      end
  end.

End MorePlugin.

(** What [_switch_persona] returns for an announcement: the text as a
    reply, or nothing when there is no text or an empty one. *)
Definition reply_of_announce (announce : option string) : option Reply :=
  match announce with
  | Some text => if nonempty text then Some (Plain text) else None
  | None => None
  end.

(** The world after the storage step of a switch, by scope. *)
Definition storage_step (self : PersonaPlus) (event : AstrMessageEvent)
    (persona_id : string) (w : World) : World :=
  let umo := unified_msg_origin event in
  let clear := clear_context_on_switch self in
  if bool_decide (auto_switch_scope self = "conversation") then
    match conversations w !! umo with
    | Some c =>
        if nonempty (cid c)
        then (update_conversation umo (cid c) persona_id clear w).2
        else (new_conversation umo persona_id w).2
    | None => (new_conversation umo persona_id w).2
    end
  else if bool_decide (auto_switch_scope self = "session") then
    (update_current umo persona_id clear
       (match scoped_conf w !! umo with
        | Some _ => (save_scoped_personality umo persona_id w).2
        | None => w
        end)).2
  else if bool_decide (auto_switch_scope self = "global") then
    (update_current umo persona_id clear (save_default_personality persona_id w).2).2
  else w.

(** The parts of a message in reading order, a quoted reply opened one
    level. *)
Definition one_level (p : Part) : list Part :=
  match p with
  | ReplyPart chain => chain
  | _ => [p]
  end.

(** A component that [_extract_persona_from_event] passes over: not a
    file, a file without a path, or a text file that is empty. *)
Definition passed_over (w : World) (component : Component) : Prop :=
  match component with
  | OtherComponent => True
  | File path =>
      path = "" \/
      (lower (suffix path) ∈ [".txt"; ".md"; ".json"] /\ files w !! path = Some "")
  end.





(** ** More worlds and events *)

(** A message without text that carries, after a component that is not
    a file and a file without a path, the file notes/persona.TXT. *)
Definition file_event : AstrMessageEvent :=
  {| event_id := 3; is_aiocqhttp := true; platform_id := "aiocqhttp";
     self_id := "10001"; unified_msg_origin := "aiocqhttp:GroupMessage:42";
     message_str := "  ";
     message := [OtherComponent; File ""; File "notes/persona.TXT";
                 File "notes/other.md"];
     sender_id := "7"; is_admin := false; bot := qq_bot |}.

Definition file_world : World :=
  with_files {[ "notes/persona.TXT" := "You are a cat." ]} synced_world.

(** A file with Windows line ends, and one that is Latin-1, the byte
    233 being its e with an acute accent. *)
Definition CR : string := String "013" "".

Definition crlf_world : World :=
  with_files {[ "notes/persona.TXT" := "You are" +:+ CR +:+ LF +:+ "a cat." +:+ CR ]}
    synced_world.

Definition latin1_world : World :=
  with_files {[ "notes/persona.TXT" := "caf" +:+ String "233" "" ]} synced_world.


(** An event of another platform. *)
Definition webchat_event : AstrMessageEvent :=
  {| event_id := 4; is_aiocqhttp := false; platform_id := "webchat";
     self_id := "web"; unified_msg_origin := "webchat:FriendMessage:1";
     message_str := "hello"; message := []; sender_id := "9"; is_admin := false;
     bot := qq_bot |}.

(** The plugin that switches in [scope] and clears the context. *)
Definition scoped_plugin (scope : string) : PersonaPlus :=
  {| keyword_mappings := [];
     auto_switch_scope := scope;
     keyword_switch_enabled := true;
     manage_wait_timeout := 120;
     require_admin_for_manage := false;
     auto_switch_announce := false;
     clear_context_on_switch := true |}.

(** A world in which the origin of [admin_event] has a configuration
    of its own and a current conversation. *)
Definition busy_world : World :=
  {| personas := {[ "bot_a" := bot_a ]};
     conversations :=
       {[ "aiocqhttp:GroupMessage:42" :=
            {| cid := "conv-0"; conv_persona := "old"; history := ["hi"] |} ]};
     conversations_made := 1;
     default_conf := {| default_personality := None; admins_id := ["1"] |};
     scoped_conf :=
       {[ "aiocqhttp:GroupMessage:42" :=
            {| default_personality := None; admins_id := [] |} ]};
     files := ∅;
     qq_sync := load_config (QQProfileSync_init "data") None;
     trace := [] |}.

(** Two rules that match the text hello; the persona of the first one
    is not in [greeter_world], that of the second one is. *)
Definition ghost_plugin : PersonaPlus :=
  {| keyword_mappings :=
       [KeywordMapping_new "hello" "ghost"; KeywordMapping_new "hell" "grumpy"];
     auto_switch_scope := "conversation";
     keyword_switch_enabled := true;
     manage_wait_timeout := 120;
     require_admin_for_manage := false;
     auto_switch_announce := false;
     clear_context_on_switch := false |}.

(** A world with avatar syncing on, nothing synced yet, and an image
    at tmp/cat.PNG. *)
Definition avatar_world : World :=
  {| personas := {[ "bot_a" := bot_a ]};
     conversations := ∅; conversations_made := 0;
     default_conf := {| default_personality := None; admins_id := [] |};
     scoped_conf := ∅;
     files := {[ "tmp/cat.PNG" := "image bytes" ]};
     qq_sync :=
       {| enabled := true; sync_nickname := false; sync_avatar := true;
          nickname_template := "{persona_id}";
          _last_synced_persona := ∅;
          avatar_dir := "data/avatars" |};
     trace := [] |}.

(** A message that quotes one with a file, and carries an image after
    the quotation. *)
Definition quoted_image : list Part :=
  [OtherPart; ReplyPart [OtherPart; FilePart "tmp/cat.PNG"];
   ImagePart "http://example.org/late.png"].

(** No request gets an answer. *)
Definition no_network (url : string) : result (nat * result string) := Raise OSError.

(** Every request is answered with status 200, and reading the body
    fails. *)
Definition broken_body (url : string) : result (nat * result string) :=
  Ok (200, Raise OSError).

(** A message with an image, in a world where the persona has an avatar. *)
Definition one_image : list Part := [ImagePart "http://example.org/cat.png"].

Definition old_avatar_world : World :=
  with_files {[ "data/avatars/bot_a.jpg" := "old image" ]} avatar_world.

(** * Properties *)

(** ** Texts *)

Lemma append_cons c s t : String c s +:+ t = String c (s +:+ t).
Proof. reflexivity. Qed.

Lemma partition_spec sep s :
  match partition sep s with
  | (l, m, r) =>
      (has_char sep s = false /\ l = s /\ m = "" /\ r = "") \/
      (m = String sep "" /\ s = l +:+ String sep r /\ has_char sep l = false)
  end.
Proof.
  induction s as [|a s IH]; simpl.
  - left. done.
  - destruct (Ascii.eqb a sep) eqn:E.
    + apply Ascii.eqb_eq in E. subst a. right. done.
    + destruct (partition sep s) as [[l m] r].
      destruct IH as [(H1 & -> & -> & ->) | (-> & -> & H3)].
      * left. rewrite H1. done.
      * right. simpl. rewrite E, H3. done.
Qed.

Lemma has_char_app_sep sep l r : has_char sep (l +:+ String sep r) = true.
Proof.
  induction l as [|a l IH].
  - change ("" +:+ String sep r) with (String sep r). simpl.
    rewrite Ascii.eqb_refl. done.
  - rewrite append_cons. simpl. rewrite IH. apply orb_true_r.
Qed.

(** The first occurrence splits a text in one way only. *)
Lemma split_first_unique sep l1 r1 l2 r2 :
  l1 +:+ String sep r1 = l2 +:+ String sep r2 ->
  has_char sep l1 = false -> has_char sep l2 = false ->
  l1 = l2 /\ r1 = r2.
Proof.
  revert l2. induction l1 as [|a l1 IH]; intros [|b l2] E H1 H2.
  - change (String sep r1 = String sep r2) in E. by inversion E.
  - change (String sep r1 = String b (l2 +:+ String sep r2)) in E.
    inversion E; subst. simpl in H2. rewrite Ascii.eqb_refl in H2. done.
  - change (String a (l1 +:+ String sep r1) = String sep r2) in E.
    inversion E; subst. simpl in H1. rewrite Ascii.eqb_refl in H1. done.
  - change (String a (l1 +:+ String sep r1) = String b (l2 +:+ String sep r2)) in E.
    inversion E; subst. simpl in H1, H2.
    apply orb_false_iff in H1 as [_ H1]. apply orb_false_iff in H2 as [_ H2].
    destruct (IH l2 H3 H1 H2) as [-> ->]. done.
Qed.

Lemma partition_found sep l r :
  has_char sep l = false ->
  partition sep (l +:+ String sep r) = (l, String sep "", r).
Proof.
  intros H.
  pose proof (partition_spec sep (l +:+ String sep r)) as P.
  destruct (partition sep (l +:+ String sep r)) as [[l' m] r'].
  destruct P as [(P1 & _) | (-> & P2 & P3)].
  - rewrite has_char_app_sep in P1. done.
  - destruct (split_first_unique _ _ _ _ _ P2 H P3) as [-> ->]. done.
Qed.

Lemma partition_absent sep s :
  has_char sep s = false -> partition sep s = (s, "", "").
Proof.
  intros H. pose proof (partition_spec sep s) as P.
  destruct (partition sep s) as [[l m] r].
  destruct P as [(_ & -> & -> & ->) | (_ & -> & _)]; [done|].
  rewrite has_char_app_sep in H. done.
Qed.

Lemma nonempty_true s : nonempty s = true <-> s <> "".
Proof. unfold nonempty. rewrite negb_true_iff, bool_decide_eq_false. done. Qed.

Lemma nonempty_false s : nonempty s = false <-> s = "".
Proof. unfold nonempty. rewrite negb_false_iff, bool_decide_eq_true. done. Qed.

(** ** The mapping rule parser *)

Lemma split1_bar kp :
  has_char "|" kp = true ->
  exists mode rest,
    split1 "|" kp = [mode; rest] /\ kp = mode +:+ "|" +:+ rest /\
    has_char "|" mode = false.
Proof.
  intros H. unfold split1. pose proof (partition_spec "|" kp) as P.
  destruct (partition "|" kp) as [[l m] r].
  destruct P as [(P1 & _) | (-> & P2 & P3)]; [congruence|].
  exists l, r. done.
Qed.

Lemma parse_entry_warnings entry :
  parse_errors (_parse_mapping_entry entry).1 = [].
Proof.
  unfold _parse_mapping_entry.
  destruct (partition ":" entry) as [[lhs sep] rhs].
  repeat (case_bool_decide; simpl; try done).
  destruct (has_char "|" (strip lhs)) eqn:B.
  - destruct (split1_bar _ B) as (mode & rest & -> & _).
    repeat (case_bool_decide; simpl; try done).
  - repeat (case_bool_decide; simpl; try done).
Qed.

(** What [_parse_mapping_entry] does with a line that is neither blank
    nor a comment is what the specification says of it. *)
Lemma parse_entry_outcome line :
  strip line <> "" -> startswith "#" (strip line) = false ->
  exists o,
    spec_entry line o /\
    match o with
    | Skipped => False
    | Dropped why => (_parse_mapping_entry (strip line)).2 = Raise (ValueError why)
    | Kept m => (_parse_mapping_entry (strip line)).2 = Ok m
    end.
Proof.
  intros Hne Hc. unfold _parse_mapping_entry.
  pose proof (partition_spec ":" (strip line)) as P.
  destruct (partition ":" (strip line)) as [[lhs sep] rhs].
  destruct P as [(P1 & -> & -> & ->) | (-> & P2 & P3)].
  - exists (Dropped (BadMappingFormat (strip line))). split; [by constructor|].
    by rewrite bool_decide_eq_true_2.
  - rewrite bool_decide_eq_false_2 by done.
    destruct (decide (strip rhs = "")) as [E|E].
    + exists (Dropped (BadPersonaId (strip line))).
      split; [by eapply (spec_no_persona _ lhs rhs); try exact P2|].
      by rewrite bool_decide_eq_true_2.
    + rewrite bool_decide_eq_false_2 by done.
      destruct (has_char "|" (strip lhs)) eqn:B.
      * destruct (split1_bar _ B) as (mode & rest & -> & Hsplit & Hmode).
        destruct (decide (strip rest = "")) as [K|K].
        -- exists (Dropped (BadKeyword (strip line))). split.
           ++ eapply (spec_no_keyword _ lhs rhs); try exact P2; try done.
              rewrite <- K. by eapply spec_keyword_legacy.
           ++ simpl. by rewrite bool_decide_eq_true_2.
        -- eexists (Kept _). split.
           ++ eapply (spec_rule _ lhs rhs); try exact P2; try done.
              by eapply spec_keyword_legacy.
           ++ simpl. by rewrite bool_decide_eq_false_2.
      * destruct (decide (strip lhs = "")) as [K|K].
        -- exists (Dropped (BadKeyword (strip line))). split.
           ++ eapply (spec_no_keyword _ lhs rhs); try exact P2; try done.
              rewrite <- K. by apply spec_keyword_plain.
           ++ simpl. by rewrite bool_decide_eq_true_2.
        -- eexists (Kept _). split.
           ++ eapply (spec_rule _ lhs rhs); try exact P2; try done.
              by apply spec_keyword_plain.
           ++ simpl. by rewrite bool_decide_eq_false_2.
Qed.

Lemma parse_errors_app l1 l2 :
  parse_errors (l1 ++ l2) = parse_errors l1 ++ parse_errors l2.
Proof. apply omap_app. Qed.

Lemma kept_rules_app l1 l2 : kept_rules (l1 ++ l2) = kept_rules l1 ++ kept_rules l2.
Proof. apply omap_app. Qed.

Lemma dropped_errors_app l1 l2 :
  dropped_errors (l1 ++ l2) = dropped_errors l1 ++ dropped_errors l2.
Proof. apply omap_app. Qed.

(** One turn of the loop. *)
Lemma load_entry_outcome loaded logs raw_entry :
  exists o,
    spec_entry raw_entry o /\
    (load_entry (loaded, logs) raw_entry).1 = loaded ++ kept_rules [o] /\
    parse_errors (load_entry (loaded, logs) raw_entry).2 =
      parse_errors logs ++ dropped_errors [o].
Proof.
  unfold load_entry.
  destruct (decide (strip raw_entry = "")) as [E|E].
  { exists Skipped. rewrite bool_decide_eq_true_2 by done. simpl.
    rewrite !app_nil_r. split; [by constructor|done]. }
  rewrite bool_decide_eq_false_2 by done. rewrite orb_false_l.
  destruct (startswith "#" (strip raw_entry)) eqn:C.
  { exists Skipped. simpl. rewrite !app_nil_r. split; [by apply spec_comment|done]. }
  destruct (parse_entry_outcome raw_entry E C) as (o & Ho & Hr).
  pose proof (parse_entry_warnings (strip raw_entry)) as W.
  exists o. split; [done|].
  destruct (_parse_mapping_entry (strip raw_entry)) as [warns r].
  simpl in Hr, W. destruct o as [|why|m]; [done| |]; subst r; simpl.
  - rewrite app_nil_r, !parse_errors_app, W. done.
  - rewrite parse_errors_app, W, !app_nil_r. done.
Qed.

(** The whole loop: the entries are handled one by one, in order, and
    none stops the loop. *)
Lemma load_entries_outcomes entries : forall loaded logs,
  exists outcomes,
    Forall2 spec_entry entries outcomes /\
    (fold_left load_entry entries (loaded, logs)).1 = loaded ++ kept_rules outcomes /\
    parse_errors (fold_left load_entry entries (loaded, logs)).2 =
      parse_errors logs ++ dropped_errors outcomes.
Proof.
  induction entries as [|raw entries IH]; intros loaded logs.
  - exists []. simpl. rewrite !app_nil_r. split; [constructor|done].
  - destruct (load_entry_outcome loaded logs raw) as (o & Ho & H1 & H2).
    cbn [fold_left]. destruct (load_entry (loaded, logs) raw) as [loaded' logs'].
    destruct (IH loaded' logs') as (os & Hos & H3 & H4).
    exists (o :: os). split; [by constructor|].
    simpl in H1, H2. rewrite H3, H4, H1, H2.
    change (o :: os) with ([o] ++ os).
    rewrite kept_rules_app, dropped_errors_app, !app_assoc. done.
Qed.

Lemma spec_entry_kept_nonempty line m :
  spec_entry line (Kept m) -> keyword m <> "" /\ persona_id m <> "".
Proof. inversion 1; subst. done. Qed.

Lemma kept_rules_valid entries outcomes :
  Forall2 spec_entry entries outcomes ->
  List.filter (fun m => nonempty (keyword m) && nonempty (persona_id m))
    (kept_rules outcomes) = kept_rules outcomes.
Proof.
  induction 1 as [|line o entries outcomes Ho _ IH]; [done|].
  destruct o as [|why|m]; simpl; try done.
  change (kept_rules (Kept m :: outcomes)) with (m :: kept_rules outcomes).
  destruct (spec_entry_kept_nonempty _ _ Ho) as [K P].
  apply nonempty_true in K, P. simpl. rewrite K, P. simpl. by rewrite IH.
Qed.

Lemma effective_timeout_logs raw : parse_errors (effective_timeout raw).2 = [].
Proof.
  unfold effective_timeout. destruct raw as [n|]; simpl.
  - destruct (n <=? 0)%Z; done.
  - done.
Qed.

Lemma mapping_entries_logs raw : parse_errors (mapping_entries raw).2 = [].
Proof. by destruct raw. Qed.

(** [_load_config] keeps exactly the entries the specification keeps,
    in their order, and logs one error for each entry it drops. *)
Lemma load_config_outcomes (self : PersonaPlus) (qq_sync : QQProfileSync)
    (config : AstrBotConfig) :
  exists outcomes,
    Forall2 spec_entry (mapping_entries (cfg_keyword_mappings config)).1 outcomes /\
    keyword_mappings (plugin (_load_config self qq_sync (Some config))) =
      kept_rules outcomes /\
    parse_errors (log (_load_config self qq_sync (Some config))) =
      dropped_errors outcomes.
Proof.
  unfold _load_config.
  pose proof (mapping_entries_logs (cfg_keyword_mappings config)) as L0.
  destruct (mapping_entries (cfg_keyword_mappings config)) as [entries logs0].
  unfold load_entries.
  destruct (load_entries_outcomes entries [] []) as (outcomes & Hs & H1 & H2).
  destruct (fold_left load_entry entries ([], [])) as [loaded logs1].
  pose proof (effective_timeout_logs (cfg_manage_wait_timeout_seconds config)) as L2.
  destruct (effective_timeout (cfg_manage_wait_timeout_seconds config)) as [timeout logs2].
  exists outcomes. simpl in *. subst loaded.
  split; [done|]. split.
  - by eapply kept_rules_valid.
  - rewrite !parse_errors_app, L0, L2, H2, app_nil_r. done.
Qed.

(** C8. The mapping parser takes the configuration text line by line.
    A blank line or a comment is skipped.  Every other line is split at
    its first colon: without a colon, with nothing after it or with no
    keyword before it, the line is dropped and one error is logged;
    otherwise it gives a rule.  The rules kept are the valid ones in
    the order of the lines, whatever the other lines are; the text
    "hello:cheerful / # comment / bad_line / hi:cheerful" (four lines)
    gives exactly the rules hello and hi. *)
Theorem load_config_keeps_valid_entries_in_order :
  (forall (self : PersonaPlus) (qq_sync : QQProfileSync) (config : AstrBotConfig),
     exists outcomes,
       Forall2 spec_entry (mapping_entries (cfg_keyword_mappings config)).1 outcomes /\
       keyword_mappings (plugin (_load_config self qq_sync (Some config))) =
         kept_rules outcomes /\
       parse_errors (log (_load_config self qq_sync (Some config))) =
         dropped_errors outcomes) /\
  (forall text, (mapping_entries (MappingsText text)).1 = splitlines text) /\
  (let loaded :=
     PersonaPlus_new "data"
       (Some (config_with_mappings
                ("hello:cheerful" +:+ LF +:+ "# comment" +:+ LF +:+ "bad_line" +:+ LF +:+
                 "hi:cheerful"))) in
   keyword_mappings (plugin loaded) =
     [KeywordMapping_new "hello" "cheerful"; KeywordMapping_new "hi" "cheerful"] /\
   log loaded = [LogParseError (ValueError (BadMappingFormat "bad_line"))]).
Proof.
  split; [apply load_config_outcomes|]. split; [done|]. split; vm_compute; reflexivity.
Qed.

(** The specification's reading of a line leaves no choice. *)
Lemma spec_keyword_deterministic lhs k1 k2 :
  spec_keyword lhs k1 -> spec_keyword lhs k2 -> k1 = k2.
Proof.
  intros [H1 | mode1 rest1 E1 H1] [H2 | mode2 rest2 E2 H2]; [done | | |].
  - rewrite E2 in H1. change (mode2 +:+ "|" +:+ rest2) with (mode2 +:+ String "|" rest2) in H1.
    rewrite has_char_app_sep in H1. done.
  - rewrite E1 in H2. change (mode1 +:+ "|" +:+ rest1) with (mode1 +:+ String "|" rest1) in H2.
    rewrite has_char_app_sep in H2. done.
  - rewrite E1 in E2.
    destruct (split_first_unique "|" mode1 rest1 mode2 rest2 E2 H1 H2) as [_ ->]. done.
Qed.

Lemma spec_entry_deterministic line o1 o2 :
  spec_entry line o1 -> spec_entry line o2 -> o1 = o2.
Proof.
  assert (Hsplit : forall l1 r1 l2 r2,
             strip line = l1 +:+ ":" +:+ r1 -> has_char ":" l1 = false ->
             strip line = l2 +:+ ":" +:+ r2 -> has_char ":" l2 = false ->
             l1 = l2 /\ r1 = r2).
  { intros l1 r1 l2 r2 E1 H1 E2 H2. rewrite E1 in E2.
    exact (split_first_unique ":" l1 r1 l2 r2 E2 H1 H2). }
  assert (Hcolon : forall l r, strip line = l +:+ ":" +:+ r ->
                               has_char ":" (strip line) = true).
  { intros l r ->. apply (has_char_app_sep ":" l r). }
  intros S1 S2.
  destruct S1 as [A1 | A1 | A1 B1 C1 | l1 r1 A1 B1 E1 D1 F1
                 | l1 r1 A1 B1 E1 D1 F1 G1 | l1 r1 k1 A1 B1 E1 D1 F1 G1 K1];
  destruct S2 as [A2 | A2 | A2 B2 C2 | l2 r2 A2 B2 E2 D2 F2
                 | l2 r2 A2 B2 E2 D2 F2 G2 | l2 r2 k2 A2 B2 E2 D2 F2 G2 K2];
  try done; try congruence;
  try (rewrite (Hcolon _ _ E1) in *; congruence);
  try (rewrite (Hcolon _ _ E2) in *; congruence);
  destruct (Hsplit _ _ _ _ E1 D1 E2 D2) as [-> ->]; try congruence.
  - pose proof (spec_keyword_deterministic _ _ _ G1 G2). congruence.
  - pose proof (spec_keyword_deterministic _ _ _ G1 G2). congruence.
  - pose proof (spec_keyword_deterministic _ _ _ G1 G2). congruence.
Qed.

(** ** Running computations *)

Lemma run_bind {A B} (m : M A) (k : A -> M B) w :
  (m ≫= k) w =
  match m w with
  | (Ok a, w') => k a w'
  | (Raise e, w') => (Raise e, w')
  end.
Proof. reflexivity. Qed.

Lemma run_ret {A} (a : A) w : (mret a : M A) w = (Ok a, w).
Proof. reflexivity. Qed.

(** ** The switch orchestrator *)

Section Switching.

Variable py_format : string -> string -> result string.
Variable self : PersonaPlus.

(** C9. When the persona id does not resolve in the persona store,
    [_switch_persona] raises the store's error and leaves the world as
    it was: no conversation is created or updated, no configuration
    is written, no profile is pushed, nothing is added to the trace. *)
Theorem switch_unknown_persona_changes_nothing
    (event : AstrMessageEvent) (persona_id : string) (announce : option string)
    (w : World) :
  personas w !! persona_id = None ->
  _switch_persona py_format self event persona_id announce w =
    (Raise (ValueError (PersonaNotFound persona_id)), w).
Proof.
  intros H. unfold _switch_persona. rewrite run_bind.
  unfold get_persona. rewrite H. reflexivity.
Qed.

(** The rules before the first match are passed over, the rules after
    it are not looked at. *)
Lemma scan_mappings_first_match event text before m after w :
  Forall (fun b => matches b text = false) before ->
  matches m text = true ->
  scan_mappings py_format self event text (before ++ m :: after) w =
    match spec_announce py_format self m with
    | Ok announce => _switch_persona py_format self event (persona_id m) announce w
    | Raise e => (Raise e, w)
    end.
Proof.
  intros Hb Hm. induction Hb as [|b before Hb _ IH].
  - cbn [app scan_mappings]. rewrite Hm, run_bind. unfold spec_announce.
    destruct (decide (reply_template m = "")) as [E|E].
    + rewrite (proj2 (nonempty_false _) E).
      rewrite bool_decide_eq_false_2 by (intros N; by apply N).
      by destruct (auto_switch_announce self).
    + rewrite (proj2 (nonempty_true _) E), bool_decide_eq_true_2 by done.
      rewrite run_bind. unfold lift.
      by destruct (py_format (reply_template m) (persona_id m)).
  - cbn [app scan_mappings]. rewrite Hb. exact IH.
Qed.

Lemma scan_mappings_no_match event text mappings w :
  Forall (fun b => matches b text = false) mappings ->
  scan_mappings py_format self event text mappings w = (Ok None, w).
Proof.
  induction 1 as [|b rest Hb _ IH]; [done|].
  cbn [scan_mappings]. rewrite Hb. exact IH.
Qed.

Lemma on_message_scans event w :
  message_str event <> "" -> keyword_switch_enabled self = true ->
  on_message py_format self event w =
    scan_mappings py_format self event (message_str event) (keyword_mappings self) w.
Proof.
  intros Ht He. unfold on_message.
  rewrite (proj2 (nonempty_true _) Ht), He. simpl.
  case_bool_decide as E; [|done]. by rewrite E.
Qed.

(** C5. The matcher applies the first rule, in the order of
    declaration, whose keyword is contained in the text (both in lower
    case unless the rule is case-sensitive): it makes the one switch
    to that rule's persona, whatever rules follow.  The announcement
    is the rule's template with the persona id filled in when the
    rule has one, else the generic text when announcing is on, else
    none. *)
Theorem on_message_first_match_wins
    (event : AstrMessageEvent) (w : World)
    (before : list KeywordMapping) (m : KeywordMapping)
    (after : list KeywordMapping) :
  message_str event <> "" ->
  keyword_switch_enabled self = true ->
  keyword_mappings self = before ++ m :: after ->
  Forall (fun b => matches b (message_str event) = false) before ->
  matches m (message_str event) = true ->
  on_message py_format self event w =
    match spec_announce py_format self m with
    | Ok announce => _switch_persona py_format self event (persona_id m) announce w
    | Raise e => (Raise e, w)
    end /\
  matches m (message_str event) =
    (if case_sensitive m then contains (keyword m) (message_str event)
     else contains (lower (keyword m)) (lower (message_str event))).
Proof.
  intros Ht He Hk Hb Hm. split.
  - rewrite on_message_scans, Hk by done. by apply scan_mappings_first_match.
  - unfold matches. by destruct (case_sensitive m).
Qed.

(** Without a matching rule, or with the feature off, or without
    text, the matcher does nothing. *)
Lemma on_message_idle event w :
  message_str event = "" \/ keyword_switch_enabled self = false \/
  Forall (fun b => matches b (message_str event) = false) (keyword_mappings self) ->
  on_message py_format self event w = (Ok None, w).
Proof.
  intros H. unfold on_message.
  destruct (nonempty (message_str event)) eqn:T; [|done].
  destruct (keyword_switch_enabled self) eqn:E; [|done]. simpl.
  case_bool_decide as K; [done|].
  destruct H as [H|[H|H]].
  - apply nonempty_true in T. done.
  - done.
  - by apply scan_mappings_no_match.
Qed.

End Switching.

(** ** Rules that come from the configuration *)

Lemma kept_rules_defaults entries outcomes :
  Forall2 spec_entry entries outcomes -> Forall has_defaults (kept_rules outcomes).
Proof.
  induction 1 as [|line o entries outcomes Ho _ IH]; [constructor|].
  destruct o as [|why|m]; try exact IH.
  change (kept_rules (Kept m :: outcomes)) with (m :: kept_rules outcomes).
  constructor; [|exact IH]. inversion Ho; subst. done.
Qed.

Lemma loaded_rules_defaults (data_dir : string) (config : option AstrBotConfig) :
  Forall has_defaults (keyword_mappings (plugin (PersonaPlus_new data_dir config))).
Proof.
  unfold PersonaPlus_new. destruct config as [config|]; [|constructor].
  destruct (load_config_outcomes PersonaPlus_init (QQProfileSync_init data_dir) config)
    as (outcomes & Hs & -> & _).
  by eapply kept_rules_defaults.
Qed.

Lemma spec_announce_default py_format self m :
  reply_template m = "" ->
  spec_announce py_format self m =
    Ok (if auto_switch_announce self then Some (switched_text (persona_id m)) else None).
Proof.
  intros E. unfold spec_announce.
  rewrite bool_decide_eq_false_2 by (intros N; by apply N).
  by destruct (auto_switch_announce self).
Qed.

(** C10. Every rule the configuration parser produces is
    case-insensitive and has no reply template.  So a rule loaded from
    the configuration matches a text exactly when its keyword in lower
    case is contained in the text in lower case, and when the matcher
    applies such a rule the announcement never comes from a template:
    it is the generic text when announcing is on, and none otherwise. *)
Theorem config_rules_have_defaults (data_dir : string) (config : option AstrBotConfig) :
  let plugin := plugin (PersonaPlus_new data_dir config) in
  Forall (fun m => case_sensitive m = false /\ reply_template m = "")
    (keyword_mappings plugin) /\
  (forall m text,
     m ∈ keyword_mappings plugin ->
     matches m text = contains (lower (keyword m)) (lower text)) /\
  (forall py_format event w before m after,
     message_str event <> "" ->
     keyword_switch_enabled plugin = true ->
     keyword_mappings plugin = before ++ m :: after ->
     Forall (fun b => matches b (message_str event) = false) before ->
     matches m (message_str event) = true ->
     on_message py_format plugin event w =
       _switch_persona py_format plugin event (persona_id m)
         (if auto_switch_announce plugin
          then Some (switched_text (persona_id m)) else None) w).
Proof.
  intros plugin. pose proof (loaded_rules_defaults data_dir config) as D.
  fold plugin in D. split; [exact D|]. split.
  - intros m text Hm. rewrite Forall_forall in D.
    destruct (D m Hm) as [C _]. unfold matches. by rewrite C.
  - intros py_format event w before m after Ht He Hk Hb Hm.
    rewrite on_message_scans, Hk by done.
    rewrite scan_mappings_first_match by done.
    rewrite Forall_forall in D.
    destruct (D m) as [_ T]; [rewrite Hk; set_solver|].
    by rewrite spec_announce_default.
Qed.

(** ** The profile sync cache *)

Ltac sync_close :=
  split;
  [ constructor; cbn; rewrite <- ?app_assoc, ?app_nil_r; reflexivity
  | split; [reflexivity|];
    split; [reflexivity|];
    intros; first [discriminate | congruence | done] ].

Ltac sync_done :=
  cbn;
  first [ exists []; solve [sync_close]
        | eexists [_]; solve [sync_close]
        | eexists [_; _]; solve [sync_close] ].

Ltac sync_cases prof av :=
  repeat lazymatch goal with
    | |- context [bool_decide (_ !! _ = Some _)] =>
        case_bool_decide; cbn [negb orb andb]
    end;
  try destruct prof as [[|]|]; try destruct av as [[|]|];
  unfold mbind, M_bind, mret, M_ret, emit, path_exists, read;
  cbn [files with_trace trace returned orb];
  repeat lazymatch goal with
    | |- context [bool_decide (is_Some _)] =>
        case_bool_decide; cbn [files with_trace trace returned orb]
    end.

Section Sync.

Variable py_format : string -> string -> result string.

Lemma maybe_sync_profile_step event persona_id force w :
  exists pushes,
    sync_step w (maybe_sync_profile py_format event persona_id force w).2 pushes /\
    (maybe_sync_profile py_format event persona_id force w).1 = Ok tt /\
    _last_synced_persona (qq_sync (maybe_sync_profile py_format event persona_id force w).2) =
      (if existsb push_succeeded pushes
       then <[bot_key_of event := persona_id]> (_last_synced_persona (qq_sync w))
       else _last_synced_persona (qq_sync w)) /\
    (force = false ->
     _last_synced_persona (qq_sync w) !! bot_key_of event = Some persona_id ->
     pushes = [] /\ (maybe_sync_profile py_format event persona_id force w).2 = w).
Proof.
  unfold maybe_sync_profile.
  destruct w as [ps cs n dc sc fs q t]. destruct q as [en sn sa nt cache dir].
  destruct event as [eid aio plat sid umo msg comps sender adm [prof av]].
  cbn [is_aiocqhttp qq_sync enabled sync_nickname sync_avatar bot
       set_qq_profile set_qq_avatar _last_synced_persona].
  destruct aio; [|sync_done].
  destruct force, en, sn, sa; cbn [negb orb andb]; try sync_done;
    try (case_bool_decide as Hc; cbn [negb orb andb]; [sync_done|]);
    destruct prof as [[|]|], av as [[|]|];
    unfold mbind, M_bind, mret, M_ret, emit, path_exists, read;
    cbn [files with_trace trace returned orb];
    try (case_bool_decide as Hf); cbn [files with_trace trace returned orb];
    sync_done.
Qed.


(** C3. A call of [maybe_sync_profile] only adds pushes to the trace.
    When one of them went through, the cache entry of the bot
    identity is set to the persona id; when none did (both skipped,
    or both failed, or the call returned early), the cache is what it
    was. *)
Theorem sync_updates_cache_only_after_a_push
    (event : AstrMessageEvent) (persona_id : string) (force : bool) (w : World) :
  exists pushes,
    trace (maybe_sync_profile py_format event persona_id force w).2 =
      trace w ++ pushes /\
    forallb is_push pushes = true /\
    _last_synced_persona
      (qq_sync (maybe_sync_profile py_format event persona_id force w).2) =
      (if existsb push_succeeded pushes
       then <[bot_key_of event := persona_id]> (_last_synced_persona (qq_sync w))
       else _last_synced_persona (qq_sync w)).
Proof.
  destruct (maybe_sync_profile_step event persona_id force w)
    as (pushes & [Ht Hp _ _ _ _] & _ & Hc & _).
  exists pushes. done.
Qed.






End Sync.

(** ** The payload parser *)

Section PayloadProperties.

Variable json_loads : string -> option pyval.
Variable py_repr : pyval -> string.

Lemma payload_blank raw :
  strip raw = "" ->
  _parse_persona_payload json_loads py_repr raw = Raise (ValueError EmptyContent).
Proof.
  intros E. unfold _parse_persona_payload.
  by rewrite (proj2 (nonempty_false _) E).
Qed.

Lemma payload_not_json raw :
  strip raw <> "" -> json_loads (strip raw) = None ->
  _parse_persona_payload json_loads py_repr raw = Ok (strip raw, []).
Proof.
  intros E H. unfold _parse_persona_payload.
  by rewrite (proj2 (nonempty_true _) E), H.
Qed.

Lemma payload_not_object raw v :
  strip raw <> "" -> json_loads (strip raw) = Some v -> is_dict v = false ->
  _parse_persona_payload json_loads py_repr raw = Raise (ValueError JsonNotObject).
Proof.
  intros E H D. unfold _parse_persona_payload.
  rewrite (proj2 (nonempty_true _) E), H. by destruct v.
Qed.

(** C1, as the code has it.  A text that decodes as JSON of another
    type than an object (a string, a number, an array) is rejected with
    the error that the JSON must be an object.  The text that is taken
    verbatim, trimmed, as the system prompt with no dialogs is the text
    that does not decode as JSON at all. *)
Theorem payload_non_object_json_is_rejected (raw : string) :
  strip raw <> "" ->
  (forall v, json_loads (strip raw) = Some v -> is_dict v = false ->
     _parse_persona_payload json_loads py_repr raw = Raise (ValueError JsonNotObject)) /\
  (json_loads (strip raw) = None ->
     _parse_persona_payload json_loads py_repr raw = Ok (strip raw, [])).
Proof.
  intros E. split.
  - intros v. by apply payload_not_object.
  - by apply payload_not_json.
Qed.

Lemma payload_object raw items :
  strip raw <> "" -> json_loads (strip raw) = Some (PDict items) ->
  _parse_persona_payload json_loads py_repr raw =
    let prompt := dict_get items "system_prompt" PNone in
    if negb (truthy prompt) then Raise (ValueError MissingSystemPrompt)
    else
      let begin_dialogs := dict_get items "begin_dialogs" (PList []) in
      (if truthy begin_dialogs then
         n ← py_len begin_dialogs;
         if negb (n mod 2 =? 0) then Raise (ValueError OddBeginDialogs) else Ok tt
       else Ok tt);;
      xs ← py_iter begin_dialogs;
      Ok (py_str py_repr prompt, map (py_str py_repr) xs).
Proof.
  intros E H. unfold _parse_persona_payload.
  by rewrite (proj2 (nonempty_true _) E), H.
Qed.

Lemma even_mod2 n : (n mod 2 =? 0) = Nat.even n.
Proof.
  destruct (Nat.even n) eqn:E.
  - apply Nat.even_spec in E as [k ->]. apply Nat.eqb_eq.
    rewrite Nat.mul_comm. apply Nat.Div0.mod_mul.
  - apply Nat.eqb_neq. intros H. apply Nat.Div0.mod_divides in H as [k ->].
    rewrite Nat.even_mul in E. done.
Qed.

(** C7, as the code has it.  A text that decodes as a JSON object is
    rejected unless the object has a [system_prompt] that counts as
    true: a non-empty string, or another value that is not null, false,
    zero or empty, which [str] then converts.  With such a
    [system_prompt], a [begin_dialogs] array of odd length is rejected,
    and one of even length, the empty one and the absent one included,
    is accepted and gives the prompt and the dialogs as texts.  When
    the [system_prompt] is a string, the empty one is rejected and a
    non-empty one is the prompt as it stands. *)
Theorem payload_object_needs_prompt_and_even_dialogs
    (raw : string) (items : list (string * pyval)) :
  strip raw <> "" ->
  json_loads (strip raw) = Some (PDict items) ->
  (truthy (dict_get items "system_prompt" PNone) = false ->
   _parse_persona_payload json_loads py_repr raw =
     Raise (ValueError MissingSystemPrompt)) /\
  (truthy (dict_get items "system_prompt" PNone) = true ->
   forall l, dict_get items "begin_dialogs" (PList []) = PList l ->
     _parse_persona_payload json_loads py_repr raw =
       if Nat.even (length l)
       then Ok (py_str py_repr (dict_get items "system_prompt" PNone),
                map (py_str py_repr) l)
       else Raise (ValueError OddBeginDialogs)) /\
  (forall s, dict_get items "system_prompt" PNone = PStr s ->
     (s = "" ->
      _parse_persona_payload json_loads py_repr raw =
        Raise (ValueError MissingSystemPrompt)) /\
     (s <> "" -> dict_get items "begin_dialogs" (PList []) = PList [] ->
      _parse_persona_payload json_loads py_repr raw = Ok (s, []))).
Proof.
  intros E H. rewrite (payload_object _ _ E H). cbv zeta. split; [|split].
  - intros T. by rewrite T.
  - intros T l B. rewrite T, B. cbn [negb].
    destruct l as [|x l]; [done|].
    cbn [truthy negb]. rewrite bool_decide_eq_false_2 by done. cbn [negb].
    cbn [py_len py_iter]. cbn [mbind result_bind].
    rewrite even_mod2. by destruct (Nat.even (length (x :: l))).
  - intros s P. rewrite P. cbn [truthy]. split.
    + intros ->. done.
    + intros N B. rewrite (proj2 (nonempty_true _) N), B. done.
Qed.

End PayloadProperties.

(** ** Deleting a persona *)

Lemma foldl_delete_lookup (keys : list string) : forall (c : gmap string string) k,
  foldl (fun c key => delete key c) c keys !! k =
    if decide (k ∈ keys) then None else c !! k.
Proof.
  induction keys as [|a keys IH]; intros c k; cbn [foldl].
  - rewrite decide_False; [done|]. apply not_elem_of_nil.
  - rewrite IH. destruct (decide (k ∈ keys)) as [Hin|Hin].
    + by rewrite decide_True by set_solver.
    + destruct (decide (k = a)) as [->|Hne].
      * rewrite decide_True by set_solver. apply lookup_delete_eq.
      * rewrite decide_False; [by apply lookup_delete_ne|].
        intros [?|?]%elem_of_cons; done.
Qed.

(** [reset_persona_cache] removes the entries whose value is the
    persona id, and only those. *)
Lemma reset_persona_cache_lookup (self : QQProfileSync) (persona_id key : string) :
  _last_synced_persona (reset_persona_cache self persona_id) !! key =
    if decide (_last_synced_persona self !! key = Some persona_id) then None
    else _last_synced_persona self !! key.
Proof.
  unfold reset_persona_cache. cbn [_last_synced_persona set_cache].
  rewrite foldl_delete_lookup.
  destruct (decide (_last_synced_persona self !! key = Some persona_id)) as [H|H].
  - rewrite decide_True; [done|].
    apply list_elem_of_In, filter_In. split.
    + apply list_elem_of_In, list_elem_of_fmap.
      exists (key, persona_id). split; [done|]. by apply elem_of_map_to_list.
    + by apply bool_decide_eq_true.
  - rewrite decide_False; [done|].
    intros Hin. apply list_elem_of_In, filter_In in Hin as [_ Hin].
    by apply bool_decide_eq_true in Hin.
Qed.

(** [delete_avatar] leaves no cache entry that points at the persona. *)
Lemma delete_avatar_purges_cache (persona_id : string) (w : World) (key : string) :
  _last_synced_persona (qq_sync (delete_avatar persona_id w).2) !! key <> Some persona_id.
Proof.
  unfold delete_avatar. cbn [snd].
  assert (E : forall w', qq_sync (with_qq_sync (reset_persona_cache (qq_sync w) persona_id) w')
                         = reset_persona_cache (qq_sync w) persona_id) by done.
  rewrite E, reset_persona_cache_lookup.
  by destruct (decide (_last_synced_persona (qq_sync w) !! key = Some persona_id)).
Qed.

(** [cmd_delete] never touches the profile sync state. *)
Lemma cmd_delete_keeps_sync_state (self : PersonaPlus) (event : AstrMessageEvent)
    (persona_id : string) (w : World) :
  qq_sync (cmd_delete self event persona_id w).2 = qq_sync w.
Proof.
  unfold cmd_delete. rewrite run_bind. unfold read.
  destruct (_has_permission self w event true true); cbn [negb]; [|done].
  rewrite run_bind. unfold attempt, delete_persona.
  destruct (personas w !! persona_id); [done|done].
Qed.

(** C2, on the code.  The delete command leaves the profile sync cache
    as it is, in every world.  In the concrete run the command succeeds
    and the cache still maps the bot identity to the deleted persona;
    after the persona is created again, the switch to it pushes
    nothing.  Had the deletion gone through [delete_avatar], the switch
    would push the nickname. *)
Theorem cmd_delete_leaves_cache_entries :
  (forall self event persona_id w,
     _last_synced_persona (qq_sync (cmd_delete self event persona_id w).2) =
     _last_synced_persona (qq_sync w)) /\
  (cmd_delete PersonaPlus_init (admin_event "hello") "bot_a" synced_world).1 = Ok tt /\
  trace (cmd_delete PersonaPlus_init (admin_event "hello") "bot_a" synced_world).2 =
    [DeletePersona "bot_a"; Send 1 (Deleted "bot_a")] /\
  _last_synced_persona
    (qq_sync (cmd_delete PersonaPlus_init (admin_event "hello") "bot_a" synced_world).2)
    !! "aiocqhttp:10001" = Some "bot_a" /\
  delete_recreate_switch false = [] /\
  delete_recreate_switch true = [SetQQProfile "bot_a" Returns].
Proof.
  split.
  - intros self event persona_id w. by rewrite cmd_delete_keeps_sync_state.
  - vm_compute. done.
Qed.

(** ** The interactive create command *)

Section CreateCommand.

Variable json_loads : string -> option pyval.
Variable py_repr : pyval -> string.
Variable self : PersonaPlus.

Lemma wait_for_create_expired event persona_id w :
  wait_for_create json_loads py_repr event persona_id Expired w =
    (Ok tt, with_trace (trace w ++ [Send (event_id event) WaitTimedOut]) w).
Proof. reflexivity. Qed.

Lemma cmd_create_started event persona_id w :
  (cmd_create self event persona_id w).1 = Ok true ->
  (cmd_create self event persona_id w).2 =
    with_trace (trace w ++ [Send (event_id event) SendContentPrompt;
                           StopEvent (event_id event)]) w.
Proof.
  unfold cmd_create. rewrite run_bind. unfold read.
  destruct (_has_permission self w event true false); cbn [negb]; [|done].
  rewrite run_bind. unfold attempt, get_persona.
  destruct (personas w !! persona_id); [done|].
  intros _. unfold send, emit, mbind, M_bind, mret, M_ret, with_trace. cbn.
  by rewrite <- app_assoc.
Qed.

(** C6. When the create command has started its wait and the wait
    expires before any event of the session arrives, the caller gets
    the cancellation message on the channel of the original command and
    the persona store is not touched: the whole session sends the
    prompt, stops the event, sends the cancellation, and does nothing
    else, whatever the world is when the deadline passes. *)
Theorem create_wait_timeout_cancels
    (event : AstrMessageEvent) (persona_id : string) (w : World) :
  (cmd_create self event persona_id w).1 = Ok true ->
  create_session json_loads py_repr self event persona_id Expired w =
    (Ok tt,
     with_trace (trace w ++ [Send (event_id event) SendContentPrompt;
                            StopEvent (event_id event);
                            Send (event_id event) WaitTimedOut]) w) /\
  personas (create_session json_loads py_repr self event persona_id Expired w).2 =
    personas w /\
  (forall w',
     wait_for_create json_loads py_repr event persona_id Expired w' =
       (Ok tt, with_trace (trace w' ++ [Send (event_id event) WaitTimedOut]) w')).
Proof.
  intros H. pose proof (cmd_create_started _ _ _ H) as E.
  assert (S : create_session json_loads py_repr self event persona_id Expired w =
              (Ok tt,
               with_trace (trace w ++ [Send (event_id event) SendContentPrompt;
                                      StopEvent (event_id event);
                                      Send (event_id event) WaitTimedOut]) w)).
  { unfold create_session. rewrite run_bind.
    destruct (cmd_create self event persona_id w) as [r w1]. cbn [fst snd] in H, E.
    subst r w1. rewrite wait_for_create_expired. unfold with_trace. cbn.
    by rewrite <- app_assoc. }
  split; [exact S|]. split; [by rewrite S|]. intros w'. apply wait_for_create_expired.
Qed.

End CreateCommand.

(** * Concrete runs *)

(** C1, as stated, fails: a number, a string in quotes and an array all
    decode as JSON that is not an object, and the parser raises instead
    of returning the text as the prompt. *)
Lemma non_object_json_is_not_taken_as_text :
  (Json.loads (strip " 123 ") = Some (PInt 123) /\
   _parse_persona_payload Json.loads Json.type_name " 123 " =
     Raise (ValueError JsonNotObject)) /\
  (Json.loads (strip (quoted "hello")) = Some (PStr "hello") /\
   _parse_persona_payload Json.loads Json.type_name (quoted "hello") =
     Raise (ValueError JsonNotObject)) /\
  (Json.loads (strip "[1, 2]") = Some (PList [PInt 1; PInt 2]) /\
   _parse_persona_payload Json.loads Json.type_name "[1, 2]" =
     Raise (ValueError JsonNotObject)) /\
  ~ (forall raw v,
       Json.loads (strip raw) = Some v -> is_dict v = false ->
       _parse_persona_payload Json.loads Json.type_name raw = Ok (strip raw, [])).
Proof.
  split; [split; vm_compute; reflexivity|].
  split; [split; vm_compute; reflexivity|].
  split; [split; vm_compute; reflexivity|].
  intros H.
  assert (L : Json.loads (strip " 123 ") = Some (PInt 123)) by (vm_compute; reflexivity).
  specialize (H " 123 " (PInt 123) L eq_refl).
  vm_compute in H. discriminate.
Qed.

Lemma payload_non_object_json_is_rejected_witness :
  strip " 123 " <> "" /\
  Json.loads (strip " 123 ") = Some (PInt 123) /\
  _parse_persona_payload Json.loads Json.type_name " 123 " =
    Raise (ValueError JsonNotObject) /\
  Json.loads (strip " hello ") = None /\
  _parse_persona_payload Json.loads Json.type_name " hello " = Ok ("hello", []).
Proof.
  assert (N1 : strip " 123 " <> "") by (vm_compute; discriminate).
  assert (N2 : strip " hello " <> "") by (vm_compute; discriminate).
  split; [exact N1|]. split; [vm_compute; reflexivity|]. split.
  - apply (proj1 (payload_non_object_json_is_rejected
                    Json.loads Json.type_name " 123 " N1) (PInt 123));
      vm_compute; reflexivity.
  - split; [vm_compute; reflexivity|].
    apply (proj2 (payload_non_object_json_is_rejected
                    Json.loads Json.type_name " hello " N2)).
    vm_compute; reflexivity.
Defined.

(** C7, as stated, fails: the object [{"system_prompt": 5}] has no
    [system_prompt] string and is accepted, the number converted. *)
Lemma number_prompt_is_accepted :
  Json.loads (strip number_prompt_payload) = Some (PDict [("system_prompt", PInt 5)]) /\
  _parse_persona_payload Json.loads Json.type_name number_prompt_payload = Ok ("5", []) /\
  ~ (forall raw items,
       Json.loads (strip raw) = Some (PDict items) ->
       is_Ok (_parse_persona_payload Json.loads Json.type_name raw) = true ->
       exists s, s <> "" /\ dict_get items "system_prompt" PNone = PStr s).
Proof.
  split; [vm_compute; reflexivity|]. split; [vm_compute; reflexivity|].
  intros H.
  destruct (H number_prompt_payload [("system_prompt", PInt 5)]) as (s & _ & E);
    [vm_compute; reflexivity|vm_compute; reflexivity|].
  vm_compute in E. discriminate.
Qed.

Lemma payload_object_needs_prompt_and_even_dialogs_witness :
  strip odd_payload <> "" /\
  Json.loads (strip odd_payload) =
    Some (PDict [("system_prompt", PStr "X"); ("begin_dialogs", PList [PStr "hi"])]) /\
  _parse_persona_payload Json.loads Json.type_name odd_payload =
    Raise (ValueError OddBeginDialogs).
Proof.
  assert (N : strip odd_payload <> "") by (vm_compute; discriminate).
  assert (L : Json.loads (strip odd_payload) =
              Some (PDict [("system_prompt", PStr "X");
                           ("begin_dialogs", PList [PStr "hi"])]))
    by (vm_compute; reflexivity).
  split; [exact N|]. split; [exact L|].
  pose proof (proj1 (proj2 (payload_object_needs_prompt_and_even_dialogs
                              Json.loads Json.type_name odd_payload _ N L))) as P.
  apply (P eq_refl [PStr "hi"] eq_refl).
Defined.

Lemma switch_unknown_persona_changes_nothing_witness :
  personas synced_world !! "ghost" = None /\
  _switch_persona Format.format PersonaPlus_init (admin_event "hello") "ghost"
    (Some "hi") synced_world =
    (Raise (ValueError (PersonaNotFound "ghost")), synced_world).
Proof.
  assert (H : personas synced_world !! "ghost" = None) by (vm_compute; reflexivity).
  split; [exact H|].
  apply (switch_unknown_persona_changes_nothing Format.format PersonaPlus_init
           (admin_event "hello") "ghost" (Some "hi") synced_world H).
Defined.

Lemma on_message_first_match_wins_witness :
  (on_message Format.format greeter (admin_event "hello from hell") greeter_world).1 =
    Ok (Some (Plain "Now cheerful!")) /\
  trace (on_message Format.format greeter (admin_event "hello from hell") greeter_world).2 =
    [NewConversation "aiocqhttp:GroupMessage:42" "cheerful";
     SetQQProfile "cheerful" Returns].
Proof.
  assert (Ht : message_str (admin_event "hello from hell") <> "") by discriminate.
  assert (Hb : Forall (fun b => matches b (message_str (admin_event "hello from hell")) = false)
                 [bye_rule]).
  { constructor; [vm_compute; reflexivity|constructor]. }
  assert (Hm : matches hello_rule (message_str (admin_event "hello from hell")) = true)
    by (vm_compute; reflexivity).
  destruct (on_message_first_match_wins Format.format greeter
              (admin_event "hello from hell") greeter_world
              [bye_rule] hello_rule [hell_rule] Ht eq_refl eq_refl Hb Hm) as [E _].
  rewrite E. split; vm_compute; reflexivity.
Defined.

Lemma config_rules_have_defaults_witness :
  keyword_mappings two_rules =
    [KeywordMapping_new "hello" "cheerful"; KeywordMapping_new "hi" "cheerful"] /\
  (on_message Format.format two_rules (admin_event "HI all") greeter_world).1 = Ok None /\
  trace (on_message Format.format two_rules (admin_event "HI all") greeter_world).2 =
    [NewConversation "aiocqhttp:GroupMessage:42" "cheerful";
     SetQQProfile "cheerful" Returns].
Proof.
  assert (Hk : keyword_mappings two_rules =
               [KeywordMapping_new "hello" "cheerful"] ++
               KeywordMapping_new "hi" "cheerful" :: []) by (vm_compute; reflexivity).
  split; [exact Hk|].
  assert (Ht : message_str (admin_event "HI all") <> "") by discriminate.
  assert (He : keyword_switch_enabled two_rules = true) by (vm_compute; reflexivity).
  assert (Hb : Forall (fun b => matches b (message_str (admin_event "HI all")) = false)
                 [KeywordMapping_new "hello" "cheerful"]).
  { constructor; [vm_compute; reflexivity|constructor]. }
  assert (Hm : matches (KeywordMapping_new "hi" "cheerful")
                 (message_str (admin_event "HI all")) = true)
    by (vm_compute; reflexivity).
  pose proof (proj2 (proj2 (config_rules_have_defaults "data"
                              (Some (config_with_mappings
                                       ("hello:cheerful" +:+ LF +:+ "hi:cheerful")))))
                Format.format (admin_event "HI all") greeter_world _ _ _
                Ht He Hk Hb Hm) as E.
  fold two_rules in E. rewrite E. split; vm_compute; reflexivity.
Defined.



Lemma create_wait_timeout_cancels_witness :
  (cmd_create PersonaPlus_init (admin_event "create") "bot_b" synced_world).1 = Ok true /\
  create_session Json.loads Json.type_name PersonaPlus_init (admin_event "create")
    "bot_b" Expired synced_world =
    (Ok tt,
     with_trace [Send 1 SendContentPrompt; StopEvent 1; Send 1 WaitTimedOut]
       synced_world).
Proof.
  assert (H : (cmd_create PersonaPlus_init (admin_event "create") "bot_b"
                 synced_world).1 = Ok true) by (vm_compute; reflexivity).
  split; [exact H|].
  apply (proj1 (create_wait_timeout_cancels Json.loads Json.type_name PersonaPlus_init
                  (admin_event "create") "bot_b" synced_world H)).
Defined.

(** The same session when the content arrives in time: the persona is
    created from a plain text, and a payload with one dialog turn is
    refused without touching the store. *)
Example create_session_delivered :
  trace (create_session Json.loads Json.type_name PersonaPlus_init
           (admin_event "create") "bot_b"
           (Delivered (admin_event "You are bot B.")) synced_world).2 =
    [Send 1 SendContentPrompt; StopEvent 1;
     CreatePersona "bot_b"
       {| system_prompt := "You are bot B."; begin_dialogs := None; tools := None |};
     Send 1 (CreateSucceeded "bot_b")] /\
  trace (create_session Json.loads Json.type_name PersonaPlus_init
           (admin_event "create") "bot_b"
           (Delivered (admin_event odd_payload)) synced_world).2 =
    [Send 1 SendContentPrompt; StopEvent 1;
     Send 1 (CreateFailed (ValueError OddBeginDialogs))].
Proof. split; vm_compute; reflexivity. Qed.

(** * Further properties *)

(** ** Configuration and rules *)

(** X2. A line [keyword:persona_id] is cut at its first colon: what
    precedes it, trimmed, is the keyword (when it has no bar), and all
    that follows it, later colons included, trimmed, is the persona id.
    Nothing is logged. *)
Theorem parse_mapping_entry_splits_at_first_colon (lhs rhs : string) :
  has_char ":" lhs = false ->
  has_char "|" (strip lhs) = false ->
  strip lhs <> "" -> strip rhs <> "" ->
  _parse_mapping_entry (lhs +:+ ":" +:+ rhs) =
    ([], Ok {| keyword := strip lhs; persona_id := strip rhs;
               case_sensitive := false; reply_template := "" |}).
Proof.
  intros Hc Hb Hk Hp. unfold _parse_mapping_entry.
  change (lhs +:+ ":" +:+ rhs) with (lhs +:+ String ":" rhs).
  rewrite (partition_found ":" lhs rhs Hc).
  rewrite bool_decide_eq_false_2 by done.
  rewrite bool_decide_eq_false_2 by done.
  rewrite Hb. by rewrite bool_decide_eq_false_2.
Qed.

Lemma parse_mapping_entry_splits_at_first_colon_witness :
  _parse_mapping_entry "  Good morning : sunny:v2 " =
    ([], Ok {| keyword := "Good morning"; persona_id := "sunny:v2";
               case_sensitive := false; reply_template := "" |}).
Proof.
  apply (parse_mapping_entry_splits_at_first_colon "  Good morning " " sunny:v2 ");
    vm_compute; first [reflexivity | discriminate].
Defined.

(** X3. The legacy form [mode|keyword:persona_id]: what precedes the first
    bar is thrown away, what follows it, trimmed, is the keyword, and
    one warning is logged. *)
Theorem parse_mapping_entry_drops_legacy_mode (lhs rhs mode rest : string) :
  has_char ":" lhs = false ->
  strip lhs = mode +:+ "|" +:+ rest -> has_char "|" mode = false ->
  strip rest <> "" -> strip rhs <> "" ->
  _parse_mapping_entry (lhs +:+ ":" +:+ rhs) =
    ([LogLegacyMode (lhs +:+ ":" +:+ rhs)],
     Ok {| keyword := strip rest; persona_id := strip rhs;
           case_sensitive := false; reply_template := "" |}).
Proof.
  intros Hc Hl Hm Hk Hp. unfold _parse_mapping_entry.
  change (lhs +:+ ":" +:+ rhs) with (lhs +:+ String ":" rhs).
  rewrite (partition_found ":" lhs rhs Hc).
  rewrite bool_decide_eq_false_2 by done.
  rewrite bool_decide_eq_false_2 by done.
  rewrite Hl. change (mode +:+ "|" +:+ rest) with (mode +:+ String "|" rest).
  rewrite has_char_app_sep. unfold split1.
  rewrite (partition_found "|" mode rest Hm).
  rewrite bool_decide_eq_false_2 by done.
  by rewrite bool_decide_eq_false_2.
Qed.

Lemma parse_mapping_entry_drops_legacy_mode_witness :
  _parse_mapping_entry "regex| hi|there :sunny" =
    ([LogLegacyMode "regex| hi|there :sunny"],
     Ok {| keyword := "hi|there"; persona_id := "sunny";
           case_sensitive := false; reply_template := "" |}).
Proof.
  apply (parse_mapping_entry_drops_legacy_mode "regex| hi|there " "sunny"
           "regex" " hi|there");
    vm_compute; first [reflexivity | discriminate].
Defined.

(** ** Matching *)

Lemma startswith_spec p s :
  startswith p s = true <-> exists post, s = p +:+ post.
Proof.
  revert s. induction p as [|a p IH]; intros s.
  - split; [intros _; by exists s|done].
  - destruct s as [|b s]; cbn [startswith].
    + split; [done|]. intros [post E]. discriminate E.
    + rewrite andb_true_iff, IH. split.
      * intros [E [post ->]]. apply Ascii.eqb_eq in E as ->. by exists post.
      * intros [post E]. change (String b s = String a (p +:+ post)) in E.
        inversion E; subst. split; [apply Ascii.eqb_refl|by exists post].
Qed.

Lemma contains_spec needle hay :
  contains needle hay = true <-> exists pre post, hay = pre +:+ needle +:+ post.
Proof.
  induction hay as [|c hay IH]; cbn [contains].
  - rewrite orb_false_r, startswith_spec. split.
    + intros [post E]. by exists "", post.
    + intros (pre & post & E). destruct pre as [|a pre]; [by exists post|].
      discriminate E.
  - rewrite orb_true_iff, startswith_spec, IH. split.
    + intros [[post E] | (pre & post & E)].
      * by exists "", post.
      * exists (String c pre), post. by rewrite E.
    + intros (pre & post & E). destruct pre as [|a pre].
      * left. by exists post.
      * right. change (String c hay = String a (pre +:+ needle +:+ post)) in E.
        inversion E; subst. by exists pre, post.
Qed.

(** X4. A rule matches a text exactly when its keyword occurs in the text
    as one run of characters, both taken in lower case unless the rule
    is case-sensitive. *)
Theorem matches_is_containment (m : KeywordMapping) (text : string) :
  matches m text = true <->
  exists pre post,
    (if case_sensitive m then text else lower text) =
    pre +:+ (if case_sensitive m then keyword m else lower (keyword m)) +:+ post.
Proof.
  unfold matches.
  destruct (case_sensitive m); cbn [negb].
  - apply contains_spec.
  - apply contains_spec.
Qed.

(** ** Content of an event *)

Lemma run_attempt {A} (m : M A) w : attempt m w = (Ok (m w).1, (m w).2).
Proof. unfold attempt. by destruct (m w). Qed.

Lemma read_file_component_reads_only component w :
  (_read_file_component component w).2 = w.
Proof.
  destruct component as [path|]; [|done]. cbn [_read_file_component].
  destruct (nonempty path); cbn [negb]; [|done].
  case_bool_decide; cbn [negb]; [|done].
  rewrite run_bind. unfold read_text.
  destruct (files w !! path) as [data|]; [|done]. by destruct (utf8_valid data).
Qed.

Lemma first_file_content_reads_only components w :
  (first_file_content components w).2 = w.
Proof.
  induction components as [|c rest IH]; [done|].
  cbn [first_file_content]. rewrite run_bind.
  pose proof (read_file_component_reads_only c w) as E.
  destruct (_read_file_component c w) as [[[data|]|e] w1]; cbn [snd] in E; subst w1;
    try done.
  destruct (nonempty data); [done|exact IH].
Qed.

Lemma first_file_content_passes_over w skipped rest :
  Forall (passed_over w) skipped ->
  first_file_content (skipped ++ rest) w = first_file_content rest w.
Proof.
  induction 1 as [|c skipped Hc _ IH]; [done|].
  cbn [app first_file_content]. rewrite run_bind.
  destruct c as [path|]; cbn [_read_file_component passed_over] in *; [|exact IH].
  destruct Hc as [->|[Hs Hf]]; [exact IH|].
  destruct (nonempty path); cbn [negb]; [|exact IH].
  rewrite bool_decide_eq_true_2 by done. cbn [negb].
  rewrite run_bind. unfold read_text. rewrite Hf. cbn. exact IH.
Qed.

Lemma extract_reads_only event w : (_extract_persona_from_event event w).2 = w.
Proof.
  unfold _extract_persona_from_event.
  destruct (nonempty (strip (message_str event))); [done|].
  apply first_file_content_reads_only.
Qed.

(** X5. Reading the content of an event changes nothing.  A message with
    text gives that text as it is, not trimmed, whatever is attached;
    a message without text and without a usable file raises the error
    that there is no content. *)
Theorem extract_reads_only_and_prefers_text (event : AstrMessageEvent) (w : World) :
  (_extract_persona_from_event event w).2 = w /\
  (strip (message_str event) <> "" ->
   (_extract_persona_from_event event w).1 = Ok (message_str event)) /\
  (strip (message_str event) = "" ->
   Forall (passed_over w) (message event) ->
   (_extract_persona_from_event event w).1 = Raise (ValueError NoContent)).
Proof.
  split; [apply extract_reads_only|]. unfold _extract_persona_from_event. split.
  - intros H. by rewrite (proj2 (nonempty_true _) H).
  - intros H Hp. rewrite (proj2 (nonempty_false _) H).
    rewrite <- (app_nil_r (message event)).
    by rewrite (first_file_content_passes_over w _ [] Hp).
Qed.

Lemma universal_newlines_empty data : universal_newlines data = "" -> data = "".
Proof.
  destruct data as [|c s1]; [done|]. cbn [universal_newlines].
  destruct (Ascii.eqb c "013"); [|done].
  destruct s1 as [|d s2]; [done|]. by destruct (Ascii.eqb d "010").
Qed.

(** X6. Without text, the first file that has a path and is not an empty
    text file decides: a suffix other than txt, md or json (whatever
    its case) is refused, even when a good file follows; a file that is
    not there fails the read; a file that is not UTF-8 fails the
    decoding; otherwise its content, decoded, with CR LF and CR read
    as LF, is the result. *)
Theorem extract_first_file_decides
    (event : AstrMessageEvent) (w : World)
    (skipped : list Component) (path : string) (rest : list Component) :
  strip (message_str event) = "" ->
  message event = skipped ++ File path :: rest ->
  Forall (passed_over w) skipped ->
  path <> "" ->
  (lower (suffix path) ∉ [".txt"; ".md"; ".json"] ->
   _extract_persona_from_event event w = (Raise (ValueError UnsupportedFileType), w)) /\
  (lower (suffix path) ∈ [".txt"; ".md"; ".json"] ->
   files w !! path = None ->
   _extract_persona_from_event event w = (Raise OSError, w)) /\
  (lower (suffix path) ∈ [".txt"; ".md"; ".json"] ->
   forall data, files w !! path = Some data -> utf8_valid data = false ->
   _extract_persona_from_event event w = (Raise (ValueError UndecodableText), w)) /\
  (lower (suffix path) ∈ [".txt"; ".md"; ".json"] ->
   forall data, files w !! path = Some data -> utf8_valid data = true -> data <> "" ->
   _extract_persona_from_event event w = (Ok (universal_newlines data), w)).
Proof.
  intros Ht Hm Hs Hp. unfold _extract_persona_from_event.
  rewrite (proj2 (nonempty_false _) Ht), Hm.
  rewrite (first_file_content_passes_over w skipped _ Hs).
  cbn [first_file_content _read_file_component]. rewrite run_bind.
  rewrite (proj2 (nonempty_true _) Hp). cbn [negb].
  split; [|split; [|split]].
  - intros Hn. by rewrite bool_decide_eq_false_2.
  - intros Hy Hf. rewrite bool_decide_eq_true_2 by done. cbn [negb].
    rewrite run_bind. unfold read_text. by rewrite Hf.
  - intros Hy data Hf Hu. rewrite bool_decide_eq_true_2 by done. cbn [negb].
    rewrite run_bind. unfold read_text. by rewrite Hf, Hu.
  - intros Hy data Hf Hu Hd. rewrite bool_decide_eq_true_2 by done. cbn [negb].
    rewrite run_bind. unfold read_text. rewrite Hf, Hu.
    assert (Hn : universal_newlines data <> "")
      by (intros E; by apply universal_newlines_empty in E).
    cbn. by rewrite (proj2 (nonempty_true _) Hn).
Qed.

(** ** Creating and updating personas *)

Lemma run_create_persona
    (persona_id system_prompt : string) (dialogs : list string)
    (allowed_tools : option (list string)) (w : World) :
  _create_persona persona_id system_prompt dialogs allowed_tools w =
    match personas w !! persona_id with
    | Some _ => (Raise (ValueError (PersonaExists persona_id)), w)
    | None =>
        let p := {| system_prompt := system_prompt;
                    begin_dialogs :=
                      if bool_decide (dialogs = []) then None else Some dialogs;
                    tools := allowed_tools |} in
        (Ok tt,
         with_trace (trace w ++ [CreatePersona persona_id p])
           (with_personas (insert persona_id p) w))
    end.
Proof.
  unfold _create_persona. rewrite run_bind, run_attempt. unfold get_persona.
  destruct (personas w !! persona_id) as [p|] eqn:E; cbn [fst snd]; [done|].
  unfold create_persona. rewrite E. by destruct dialogs.
Qed.

(** X7. [_create_persona] refuses an id that is taken and changes nothing;
    on a free id it stores the persona, an empty list of dialogs stored
    as no dialogs at all. *)
Theorem create_persona_refuses_taken_id
    (persona_id system_prompt : string) (dialogs : list string)
    (allowed_tools : option (list string)) (w : World) :
  (is_Some (personas w !! persona_id) ->
   _create_persona persona_id system_prompt dialogs allowed_tools w =
     (Raise (ValueError (PersonaExists persona_id)), w)) /\
  (personas w !! persona_id = None ->
   personas (_create_persona persona_id system_prompt dialogs allowed_tools w).2
     !! persona_id =
     Some {| system_prompt := system_prompt;
             begin_dialogs := if bool_decide (dialogs = []) then None else Some dialogs;
             tools := allowed_tools |} /\
   (_create_persona persona_id system_prompt dialogs allowed_tools w).1 = Ok tt /\
   forall other, other <> persona_id ->
     personas (_create_persona persona_id system_prompt dialogs allowed_tools w).2
       !! other = personas w !! other).
Proof.
  rewrite run_create_persona. split.
  - intros [p ->]. done.
  - intros ->. cbn. split; [apply lookup_insert_eq|]. split; [done|].
    intros other Hne. by apply lookup_insert_ne.
Qed.

Section Flows.

Variable json_loads : string -> option pyval.
Variable py_repr : pyval -> string.
Variable exc_text : exn -> string.
Variable updated : Persona -> string -> option (list string) -> Persona.
Variable self : PersonaPlus.

Lemma create_waiter_returns persona_id next_event w :
  (create_waiter json_loads py_repr persona_id next_event w).1 = Ok tt.
Proof.
  unfold create_waiter. rewrite run_bind, run_attempt.
  by destruct ((raw_text ← _extract_persona_from_event next_event;
                parsed ← lift (_parse_persona_payload json_loads py_repr raw_text);
                _create_persona persona_id parsed.1 parsed.2 None) w) as [[[]|e] w1].
Qed.

Lemma update_waiter_returns persona_id next_event w :
  (update_waiter json_loads py_repr exc_text updated persona_id next_event w).1 = Ok tt.
Proof.
  unfold update_waiter. rewrite run_bind, run_attempt.
  by destruct ((raw_text ← _extract_persona_from_event next_event;
                parsed ← lift (_parse_persona_payload json_loads py_repr raw_text);
                update_persona updated persona_id parsed.1
                  (match parsed.2 with [] => None | _ => Some parsed.2 end)) w)
    as [[[]|e] w1].
Qed.

(** X8. The handler of the create command never raises and answers on the
    channel of the event that brought the content, once: with the
    success message after it has stored the persona, or else with the
    failure message, the world otherwise as it was. *)
Theorem create_waiter_replies_once
    (persona_id : string) (next_event : AstrMessageEvent) (w : World) :
  (exists p,
     personas w !! persona_id = None /\
     create_waiter json_loads py_repr persona_id next_event w =
       (Ok tt,
        with_trace (trace w ++ [CreatePersona persona_id p;
                               Send (event_id next_event) (CreateSucceeded persona_id)])
          (with_personas (insert persona_id p) w))) \/
  (exists e,
     create_waiter json_loads py_repr persona_id next_event w =
       (Ok tt,
        with_trace (trace w ++ [Send (event_id next_event) (CreateFailed e)]) w)).
Proof.
  unfold create_waiter. rewrite run_bind, run_attempt, run_bind.
  pose proof (extract_reads_only next_event w) as E.
  destruct (_extract_persona_from_event next_event w) as [[raw|e] w1];
    cbn [fst snd] in E |- *; subst w1; [|right; by exists e].
  rewrite run_bind. unfold lift.
  destruct (_parse_persona_payload json_loads py_repr raw) as [[prompt dialogs]|e];
    cbn [fst snd]; [|right; by exists e].
  rewrite run_create_persona.
  destruct (personas w !! persona_id) as [p|] eqn:P; cbn [fst snd].
  - right. by exists (ValueError (PersonaExists persona_id)).
  - left. eexists. split; [done|].
    unfold send, emit, with_trace, with_personas. cbn. by rewrite <- app_assoc.
Qed.

(** X9. The task that waits for the content never raises.  A failure of
    the wait that is not the timeout is reported on the channel of the
    original command, and nothing else happens. *)
Theorem wait_for_create_never_raises
    (event : AstrMessageEvent) (persona_id : string) (waited : WaitOutcome) (w : World) :
  (wait_for_create json_loads py_repr event persona_id waited w).1 = Ok tt /\
  (forall e, waited = Failed e -> e <> TimeoutError ->
     wait_for_create json_loads py_repr event persona_id waited w =
       (Ok tt, with_trace (trace w ++ [Send (event_id event) (CreateFlowError e)]) w)).
Proof.
  split.
  - unfold wait_for_create. rewrite run_bind, run_attempt.
    destruct waited as [next_event| |e].
    + pose proof (create_waiter_returns persona_id next_event w) as R.
      by destruct (create_waiter json_loads py_repr persona_id next_event w) as [[[]|e] w1].
    + done.
    + by destruct e.
  - intros e -> Hne. by destruct e.
Qed.

(** X10. The handler of the update command never raises and answers once
    on the channel of the event that brought the content.  When the
    content is read and parsed and the persona is there, the store
    replaces it by what [update_persona] makes of it with the parsed
    prompt and the parsed dialogs (none for an empty list), and the
    answer is the success text.  Otherwise the answer is the failure
    text with the error of the step that failed, and the world is
    otherwise as it was. *)
Theorem update_waiter_replies_once
    (persona_id : string) (next_event : AstrMessageEvent) (w : World) :
  update_waiter json_loads py_repr exc_text updated persona_id next_event w =
    let failed (e : exn) :=
      (Ok tt,
       with_trace (trace w ++ [Send (event_id next_event)
                                 (Plain ("更新失败：" +:+ exc_text e))]) w) in
    match (_extract_persona_from_event next_event w).1 with
    | Raise e => failed e
    | Ok raw_text =>
        match _parse_persona_payload json_loads py_repr raw_text with
        | Raise e => failed e
        | Ok (system_prompt, begin_dialogs) =>
            match personas w !! persona_id with
            | None => failed (ValueError (PersonaNotFound persona_id))
            | Some p =>
                (Ok tt,
                 with_trace
                   (trace w ++ [Send (event_id next_event)
                                  (Plain ("人格 " +:+ persona_id +:+ " 更新成功。"))])
                   (with_personas
                      (insert persona_id
                         (updated p system_prompt
                            (match begin_dialogs with
                             | [] => None
                             | _ => Some begin_dialogs
                             end))) w))
            end
        end
    end.
Proof.
  unfold update_waiter. rewrite run_bind, run_attempt, run_bind.
  pose proof (extract_reads_only next_event w) as E.
  destruct (_extract_persona_from_event next_event w) as [[raw|e] w1];
    cbn [fst snd] in E |- *; subst w1; [|done].
  rewrite run_bind. unfold lift.
  destruct (_parse_persona_payload json_loads py_repr raw) as [[prompt dialogs]|e];
    cbn [fst snd]; [|done].
  unfold update_persona.
  by destruct (personas w !! persona_id) as [p|].
Qed.

(** X11. [cmd_update] never touches the persona store and starts its wait
    only for a persona that exists: a caller without the right gets
    the refusal, an unknown id the notice that the persona was not
    found. *)
Theorem cmd_update_starts_wait_only_for_known_id
    (event : AstrMessageEvent) (persona_id : string) (w : World) :
  cmd_update self event persona_id w =
    if negb (_has_permission self w event true false)
    then (Ok false, with_trace (trace w ++ [Send (event_id event) NeedAdmin]) w)
    else
      match personas w !! persona_id with
      | None =>
          (Ok false,
           with_trace
             (trace w ++ [Send (event_id event)
                            (Plain ("未找到人格 " +:+ persona_id +:+ "，请先创建该人格。"))]) w)
      | Some _ =>
          (Ok true,
           with_trace
             (trace w ++
              [Send (event_id event)
                 (Plain "请发送新的人格内容或文件 (txt/md/json)，将在收到后立即更新。");
               StopEvent (event_id event)]) w)
      end.
Proof.
  unfold cmd_update. rewrite run_bind. unfold read.
  destruct (_has_permission self w event true false); cbn [negb]; [|done].
  rewrite run_bind, run_attempt. unfold get_persona.
  destruct (personas w !! persona_id); cbn [fst snd]; [|done].
  unfold send, emit, mbind, M_bind, mret, M_ret, with_trace. cbn.
  by rewrite <- app_assoc.
Qed.

(** X12. The task that waits for the update never raises; when the wait
    expires it sends the cancellation on the channel of the original
    command and nothing else happens. *)
Theorem wait_for_update_never_raises
    (event : AstrMessageEvent) (persona_id : string) (waited : WaitOutcome) (w : World) :
  (wait_for_update json_loads py_repr exc_text updated event persona_id waited w).1 =
    Ok tt /\
  wait_for_update json_loads py_repr exc_text updated event persona_id Expired w =
    (Ok tt, with_trace (trace w ++ [Send (event_id event) WaitTimedOut]) w).
Proof.
  split; [|done].
  unfold wait_for_update. rewrite run_bind, run_attempt.
  destruct waited as [next_event| |e].
  - pose proof (update_waiter_returns persona_id next_event w) as R.
    by destruct (update_waiter json_loads py_repr exc_text updated persona_id next_event w)
      as [[[]|e] w1].
  - done.
  - by destruct e.
Qed.

End Flows.

(** ** The permission gate and the delete command *)

(** X13. Who passes the permission gate: everybody, when the operation does
    not need an admin (it is not forced, and it is not a management
    operation or the configuration does not ask for an admin);
    otherwise the senders the transport flags as admin and those listed
    in the global admin list or in the admin list of the origin. *)
Theorem has_permission_spec (self : PersonaPlus) (w : World)
    (event : AstrMessageEvent) (manage_operation force_admin : bool) :
  _has_permission self w event manage_operation force_admin = true <->
  (force_admin = false /\
   (manage_operation = false \/ require_admin_for_manage self = false)) \/
  is_admin event = true \/
  sender_id event ∈ admins_id (default_conf w) \/
  (unified_msg_origin event <> "" /\
   exists scoped, scoped_conf w !! unified_msg_origin event = Some scoped /\
                  sender_id event ∈ admins_id scoped).
Proof.
  unfold _has_permission, _has_manage_permission, _collect_admin_ids.
  assert (M : bool_decide
                (sender_id event ∈
                   admins_id (default_conf w) ++
                   (if nonempty (unified_msg_origin event)
                    then match scoped_conf w !! unified_msg_origin event with
                         | Some scoped => admins_id scoped
                         | None => []
                         end
                    else [])) = true <->
              sender_id event ∈ admins_id (default_conf w) \/
              (unified_msg_origin event <> "" /\
               exists scoped, scoped_conf w !! unified_msg_origin event = Some scoped /\
                              sender_id event ∈ admins_id scoped)).
  { rewrite bool_decide_eq_true, elem_of_app.
    destruct (nonempty (unified_msg_origin event)) eqn:U.
    - apply nonempty_true in U.
      destruct (scoped_conf w !! unified_msg_origin event) as [scoped|].
      + split; [intros [?|?]; [by left|right; eauto]|].
        intros [?|(_ & s & [= <-] & ?)]; [by left|by right].
      + split; [intros [?|H]; [by left|by apply elem_of_nil in H]|].
        intros [?|(_ & s & ? & _)]; [by left|done].
    - apply nonempty_false in U.
      split; [intros [?|H]; [by left|by apply elem_of_nil in H]|].
      intros [?|(? & _)]; [by left|done]. }
  destruct force_admin, manage_operation, (require_admin_for_manage self),
    (is_admin event); cbn [orb andb negb]; rewrite ?M; intuition congruence.
Qed.

Section Delete.

Variable self : PersonaPlus.

(** X14. The delete command always needs an admin, whatever the
    configuration says: a sender who is not one gets the refusal and
    nothing else happens.  For an admin, a persona that exists is
    removed from the store and the deletion is confirmed; an unknown
    id is answered with the store's error and the store is untouched. *)
Theorem cmd_delete_needs_admin
    (event : AstrMessageEvent) (persona_id : string) (w : World) :
  cmd_delete self event persona_id w =
    if negb (_has_manage_permission w event)
    then (Ok tt, with_trace (trace w ++ [Send (event_id event) NeedAdmin]) w)
    else
      match personas w !! persona_id with
      | Some _ =>
          (Ok tt,
           with_trace (trace w ++ [DeletePersona persona_id;
                                  Send (event_id event) (Deleted persona_id)])
             (with_personas (delete persona_id) w))
      | None =>
          (Ok tt,
           with_trace
             (trace w ++ [Send (event_id event)
                            (ErrorText (ValueError (PersonaNotFound persona_id)))]) w)
      end.
Proof.
  unfold cmd_delete. rewrite run_bind. unfold read, _has_permission.
  cbn [orb negb]. destruct (_has_manage_permission w event); cbn [negb]; [|done].
  rewrite run_bind, run_attempt. unfold delete_persona.
  destruct (personas w !! persona_id); cbn [fst snd]; [|done].
  unfold send, emit, with_trace, with_personas. cbn. by rewrite <- app_assoc.
Qed.

End Delete.

(** ** More on the profile sync *)

Section MoreSync.

Variable py_format : string -> string -> result string.

(** The world after [maybe_sync_profile] is the world before with a
    longer trace and another cache. *)
Lemma maybe_sync_profile_frame event persona_id force w :
  exists cache pushes,
    forallb is_push pushes = true /\
    maybe_sync_profile py_format event persona_id force w =
      (Ok tt,
       with_qq_sync (set_cache cache (qq_sync w)) (with_trace (trace w ++ pushes) w)).
Proof.
  unfold maybe_sync_profile.
  destruct w as [ps cs n dc sc fs q t]. destruct q as [en sn sa nt cache dir].
  destruct event as [eid aio plat sid umo msg comps sender adm [prof av]].
  cbn [is_aiocqhttp qq_sync enabled sync_nickname sync_avatar bot
       set_qq_profile set_qq_avatar _last_synced_persona].
  destruct aio, force, en, sn, sa; cbn [negb orb andb];
    sync_cases prof av; cbn;
    first [ by (eexists _, []; rewrite app_nil_r)
          | by (eexists _, [_]; rewrite <- ?app_assoc; split; [|reflexivity])
          | by (eexists _, [_; _]; rewrite <- ?app_assoc; split; [|reflexivity]) ].
Qed.

Lemma run_sync event persona_id force w :
  maybe_sync_profile py_format event persona_id force w =
    (Ok tt, (maybe_sync_profile py_format event persona_id force w).2).
Proof.
  destruct (maybe_sync_profile_frame event persona_id force w) as (c & p & _ & ->). done.
Qed.

(** X15. [maybe_sync_profile] never raises, whatever the platform calls do,
    and touches nothing but the trace and the cache: the persona store,
    the conversations, the configurations, the files and the sync
    settings are what they were. *)
Theorem maybe_sync_profile_touches_only_trace_and_cache
    (event : AstrMessageEvent) (persona_id : string) (force : bool) (w : World) :
  let w' := (maybe_sync_profile py_format event persona_id force w).2 in
  (maybe_sync_profile py_format event persona_id force w).1 = Ok tt /\
  personas w' = personas w /\ conversations w' = conversations w /\
  conversations_made w' = conversations_made w /\
  default_conf w' = default_conf w /\ scoped_conf w' = scoped_conf w /\
  files w' = files w /\
  enabled (qq_sync w') = enabled (qq_sync w) /\
  sync_nickname (qq_sync w') = sync_nickname (qq_sync w) /\
  sync_avatar (qq_sync w') = sync_avatar (qq_sync w) /\
  nickname_template (qq_sync w') = nickname_template (qq_sync w) /\
  avatar_dir (qq_sync w') = avatar_dir (qq_sync w).
Proof.
  destruct (maybe_sync_profile_frame event persona_id force w) as (c & p & _ & E).
  rewrite E. cbn. repeat split.
Qed.

(** X16. An event that does not come from the QQ adapter is never synced,
    forced or not; and with an adapter that has neither profile call
    every sync is a no-op, so that the cache never records a persona. *)
Theorem maybe_sync_profile_needs_adapter
    (event : AstrMessageEvent) (persona_id : string) (force : bool) (w : World) :
  is_aiocqhttp event = false \/
  (set_qq_profile (bot event) = None /\ set_qq_avatar (bot event) = None) ->
  maybe_sync_profile py_format event persona_id force w = (Ok tt, w).
Proof.
  unfold maybe_sync_profile.
  destruct w as [ps cs n dc sc fs q t]. destruct q as [en sn sa nt cache dir].
  destruct event as [eid aio plat sid umo msg comps sender adm [prof av]].
  cbn [is_aiocqhttp qq_sync enabled sync_nickname sync_avatar bot
       set_qq_profile set_qq_avatar _last_synced_persona].
  intros [->|[-> ->]]; [done|].
  destruct aio, force, en, sn, sa; cbn [negb orb andb]; try done;
    sync_cases prof av; done.
Qed.

(** X17. With [force], the nickname is pushed whenever the adapter has the
    call, also when syncing is switched off and when the cache already
    holds the persona; and when that push goes through the cache
    records the persona. *)
Theorem forced_sync_always_pushes_nickname
    (event : AstrMessageEvent) (persona_id : string) (w : World) (o : outcome) :
  is_aiocqhttp event = true ->
  set_qq_profile (bot event) = Some o ->
  (exists rest,
     trace (maybe_sync_profile py_format event persona_id true w).2 =
       trace w ++ SetQQProfile (format_nickname py_format (qq_sync w) persona_id) o :: rest) /\
  (o = Returns ->
   _last_synced_persona (qq_sync (maybe_sync_profile py_format event persona_id true w).2)
     !! bot_key_of event = Some persona_id).
Proof.
  unfold maybe_sync_profile.
  destruct w as [ps cs n dc sc fs q t]. destruct q as [en sn sa nt cache dir].
  destruct event as [eid aio plat sid umo msg comps sender adm [prof av]].
  cbn [is_aiocqhttp qq_sync enabled sync_nickname sync_avatar bot
       set_qq_profile set_qq_avatar _last_synced_persona].
  intros -> ->. destruct en, sn, sa; cbn [negb orb andb];
  destruct o; sync_cases prof av; cbn;
    (split; [ first [ by (exists []) | by (eexists [_]; rewrite <- ?app_assoc) ]
            | first [ done | intros _; apply lookup_insert_eq ] ]).
Qed.

(** X18. Without an avatar file for the persona no avatar is ever pushed:
    what the call adds to the trace is at most the nickname push. *)
Theorem no_avatar_push_without_file
    (event : AstrMessageEvent) (persona_id : string) (force : bool) (w : World) :
  files w !! get_avatar_path (qq_sync w) persona_id = None ->
  trace (maybe_sync_profile py_format event persona_id force w).2 = trace w \/
  exists o,
    trace (maybe_sync_profile py_format event persona_id force w).2 =
      trace w ++ [SetQQProfile (format_nickname py_format (qq_sync w) persona_id) o].
Proof.
  unfold maybe_sync_profile.
  destruct w as [ps cs n dc sc fs q t]. destruct q as [en sn sa nt cache dir].
  destruct event as [eid aio plat sid umo msg comps sender adm [prof av]].
  cbn [is_aiocqhttp qq_sync enabled sync_nickname sync_avatar bot
       set_qq_profile set_qq_avatar _last_synced_persona files].
  intros Hf.
  destruct aio, force, en, sn, sa; cbn [negb orb andb]; try (by left);
    sync_cases prof av; cbn;
    first [ by left | by (right; eexists)
          | (exfalso;
             match goal with H : is_Some _ |- _ => rewrite Hf in H; by destruct H end) ].
Qed.

End MoreSync.

(** ** Where a switch writes *)

Section Scopes.

Variable py_format : string -> string -> result string.
Variable self : PersonaPlus.

Lemma run_update_current umo persona_id clear_history w :
  update_current umo persona_id clear_history w =
    match conversations w !! umo with
    | Some c =>
        if nonempty (cid c)
        then (Ok tt,
              with_trace (trace w ++ [UpdateConversation umo (cid c) persona_id clear_history])
                (update_conversation umo (cid c) persona_id clear_history w).2)
        else (Ok tt, w)
    | None => (Ok tt, w)
    end.
Proof.
  unfold update_current. rewrite run_bind. unfold get_curr_conversation_id, read.
  destruct (conversations w !! umo) as [c|]; cbn [fmap option_fmap option_map]; [|done].
  by destruct (nonempty (cid c)).
Qed.

(** What follows the storage step of a switch: the sync, then the
    reply. *)
Lemma run_switch_tail event persona_id announce w1 :
  (maybe_sync_profile py_format event persona_id false;;
   match announce with
   | Some text => if nonempty text then mret (Some (Plain text)) else mret None
   | None => mret None
   end) w1 =
  (Ok (reply_of_announce announce),
   (maybe_sync_profile py_format event persona_id false w1).2).
Proof.
  rewrite run_bind, run_sync. unfold reply_of_announce.
  destruct announce as [text|]; [|done]. by destruct (nonempty text).
Qed.

Lemma run_update_current_ok umo persona_id clear_history w :
  update_current umo persona_id clear_history w =
    (Ok tt, (update_current umo persona_id clear_history w).2).
Proof.
  rewrite run_update_current.
  destruct (conversations w !! umo) as [c|]; [|done]. by destruct (nonempty (cid c)).
Qed.

(** A switch to a persona that exists: the storage step of the scope,
    the sync, the reply. *)
Lemma run_switch event persona_id announce w :
  is_Some (personas w !! persona_id) ->
  _switch_persona py_format self event persona_id announce w =
    (Ok (reply_of_announce announce),
     (maybe_sync_profile py_format event persona_id false
        (storage_step self event persona_id w)).2).
Proof.
  intros [p Hp]. unfold _switch_persona, storage_step. rewrite run_bind.
  unfold get_persona. rewrite Hp. cbv zeta.
  rewrite run_bind.
  case_bool_decide as S1; [|case_bool_decide as S2; [|case_bool_decide as S3]].
  - rewrite run_bind. unfold get_curr_conversation_id, read. cbv beta iota.
    destruct (conversations w !! unified_msg_origin event) as [c|];
      cbn [fmap option_fmap option_map].
    + destruct (nonempty (cid c)).
      * unfold update_conversation at 1, emit. cbv beta iota. apply run_switch_tail.
      * unfold new_conversation at 1, emit. cbv beta iota. apply run_switch_tail.
    + unfold new_conversation at 1, emit. cbv beta iota. apply run_switch_tail.
  - rewrite run_bind. unfold get_conf, read. cbv beta iota. rewrite run_bind.
    destruct (scoped_conf w !! unified_msg_origin event) as [conf|].
    + unfold save_scoped_personality at 1, emit. cbv beta iota.
      rewrite run_update_current_ok. apply run_switch_tail.
    + rewrite run_ret, run_update_current_ok. apply run_switch_tail.
  - rewrite run_bind. unfold save_default_personality at 1, emit. cbv beta iota.
    rewrite run_update_current_ok. apply run_switch_tail.
  - rewrite run_ret. apply run_switch_tail.
Qed.

(** X19. In conversation scope the switch makes one call to the
    conversation registry, then syncs the profile: it creates a
    conversation bound to the persona when the origin has none, and
    otherwise updates the current one, clearing its history exactly
    when the plugin is set to.  It writes no configuration. *)
Theorem switch_in_conversation_scope
    (event : AstrMessageEvent) (persona_id : string) (announce : option string)
    (w : World) :
  auto_switch_scope self = "conversation" ->
  is_Some (personas w !! persona_id) ->
  exists pushes,
    forallb is_push pushes = true /\
    (_switch_persona py_format self event persona_id announce w).1 =
      Ok (reply_of_announce announce) /\
    trace (_switch_persona py_format self event persona_id announce w).2 =
      trace w ++
      (match conversations w !! unified_msg_origin event with
       | Some c =>
           if nonempty (cid c)
           then UpdateConversation (unified_msg_origin event) (cid c) persona_id
                  (clear_context_on_switch self)
           else NewConversation (unified_msg_origin event) persona_id
       | None => NewConversation (unified_msg_origin event) persona_id
       end) :: pushes /\
    default_conf (_switch_persona py_format self event persona_id announce w).2 =
      default_conf w /\
    scoped_conf (_switch_persona py_format self event persona_id announce w).2 =
      scoped_conf w.
Proof.
  intros Hs Hp. rewrite (run_switch _ _ _ _ Hp). unfold storage_step.
  rewrite Hs, bool_decide_eq_true_2 by done. cbv zeta.
  match goal with |- context [maybe_sync_profile _ _ _ _ ?w1] =>
    destruct (maybe_sync_profile_frame py_format event persona_id false w1)
      as (cache & pushes & Hpush & ->) end.
  exists pushes. split; [done|]. split; [done|]. cbn [snd].
  destruct (conversations w !! unified_msg_origin event) as [c|];
    [destruct (nonempty (cid c))|]; cbn; by rewrite <- app_assoc.
Qed.

(** X20. In session scope the switch sets the default persona in the
    configuration of the origin and saves it, when the origin has a
    configuration, and updates the current conversation, when there is
    one.  It never creates a conversation, and it leaves the default
    configuration and the configurations of other origins alone. *)
Theorem switch_in_session_scope
    (event : AstrMessageEvent) (persona_id : string) (announce : option string)
    (w : World) :
  auto_switch_scope self = "session" ->
  is_Some (personas w !! persona_id) ->
  exists pushes,
    forallb is_push pushes = true /\
    (_switch_persona py_format self event persona_id announce w).1 =
      Ok (reply_of_announce announce) /\
    trace (_switch_persona py_format self event persona_id announce w).2 =
      trace w ++
      (match scoped_conf w !! unified_msg_origin event with
       | Some _ => [SaveConfig (Some (unified_msg_origin event))]
       | None => []
       end) ++
      (match conversations w !! unified_msg_origin event with
       | Some c =>
           if nonempty (cid c)
           then [UpdateConversation (unified_msg_origin event) (cid c) persona_id
                   (clear_context_on_switch self)]
           else []
       | None => []
       end) ++ pushes /\
    scoped_conf (_switch_persona py_format self event persona_id announce w).2 =
      alter (set_default_personality persona_id) (unified_msg_origin event)
        (scoped_conf w) /\
    default_conf (_switch_persona py_format self event persona_id announce w).2 =
      default_conf w /\
    conversations_made (_switch_persona py_format self event persona_id announce w).2 =
      conversations_made w.
Proof.
  intros Hs Hp. rewrite (run_switch _ _ _ _ Hp). unfold storage_step.
  rewrite Hs. rewrite bool_decide_eq_false_2 by done.
  rewrite bool_decide_eq_true_2 by done. cbv zeta.
  match goal with |- context [maybe_sync_profile _ _ _ _ ?w1] =>
    destruct (maybe_sync_profile_frame py_format event persona_id false w1)
      as (cache & pushes & Hpush & ->) end.
  exists pushes. split; [done|]. split; [done|]. cbn [snd].
  rewrite run_update_current.
  destruct (scoped_conf w !! unified_msg_origin event) as [conf|] eqn:C;
    unfold save_scoped_personality, emit;
    cbn [snd conversations with_trace with_scoped_conf];
    (destruct (conversations w !! unified_msg_origin event) as [c|];
     [destruct (nonempty (cid c))|]); cbn;
    rewrite <- ?app_assoc, ?app_nil_r;
    (split; [reflexivity|]); (split; [|done]);
    first [ reflexivity
          | symmetry; apply map_eq; intros k; rewrite lookup_alter;
            case_decide; subst; by rewrite ?C ].
Qed.

(** X21. In global scope the switch always sets the default persona in the
    default configuration and saves it, then updates the current
    conversation of the origin, when there is one.  It never creates a
    conversation and leaves the configurations of the origins alone. *)
Theorem switch_in_global_scope
    (event : AstrMessageEvent) (persona_id : string) (announce : option string)
    (w : World) :
  auto_switch_scope self = "global" ->
  is_Some (personas w !! persona_id) ->
  exists pushes,
    forallb is_push pushes = true /\
    (_switch_persona py_format self event persona_id announce w).1 =
      Ok (reply_of_announce announce) /\
    trace (_switch_persona py_format self event persona_id announce w).2 =
      trace w ++ SaveConfig None ::
      (match conversations w !! unified_msg_origin event with
       | Some c =>
           if nonempty (cid c)
           then [UpdateConversation (unified_msg_origin event) (cid c) persona_id
                   (clear_context_on_switch self)]
           else []
       | None => []
       end) ++ pushes /\
    default_personality
      (default_conf (_switch_persona py_format self event persona_id announce w).2) =
      Some persona_id /\
    admins_id (default_conf (_switch_persona py_format self event persona_id announce w).2) =
      admins_id (default_conf w) /\
    scoped_conf (_switch_persona py_format self event persona_id announce w).2 =
      scoped_conf w /\
    conversations_made (_switch_persona py_format self event persona_id announce w).2 =
      conversations_made w.
Proof.
  intros Hs Hp. rewrite (run_switch _ _ _ _ Hp). unfold storage_step.
  rewrite Hs. rewrite bool_decide_eq_false_2 by done.
  rewrite bool_decide_eq_false_2 by done.
  rewrite bool_decide_eq_true_2 by done. cbv zeta.
  match goal with |- context [maybe_sync_profile _ _ _ _ ?w1] =>
    destruct (maybe_sync_profile_frame py_format event persona_id false w1)
      as (cache & pushes & Hpush & ->) end.
  exists pushes. split; [done|]. split; [done|]. cbn [snd].
  rewrite run_update_current.
  unfold save_default_personality, emit.
  cbn [snd conversations with_trace with_default_conf].
  destruct (conversations w !! unified_msg_origin event) as [c|];
    [destruct (nonempty (cid c))|]; cbn;
    rewrite <- ?app_assoc; done.
Qed.

(** X22. A scope that is none of conversation, session and global makes
    the switch write nowhere: it only syncs the profile, and still
    returns the announcement. *)
Theorem switch_in_unknown_scope_only_syncs
    (event : AstrMessageEvent) (persona_id : string) (announce : option string)
    (w : World) :
  auto_switch_scope self <> "conversation" ->
  auto_switch_scope self <> "session" ->
  auto_switch_scope self <> "global" ->
  is_Some (personas w !! persona_id) ->
  _switch_persona py_format self event persona_id announce w =
    (Ok (reply_of_announce announce),
     (maybe_sync_profile py_format event persona_id false w).2).
Proof.
  intros H1 H2 H3 Hp. rewrite (run_switch _ _ _ _ Hp). unfold storage_step.
  by rewrite !bool_decide_eq_false_2.
Qed.

(** X23. When the first rule that matches names a persona the store does
    not have, the matcher raises the store's error and changes
    nothing: it does not go on to the rules that follow, even when one
    of them matches and names a persona that exists. *)
Theorem on_message_does_not_fall_through
    (event : AstrMessageEvent) (w : World)
    (before : list KeywordMapping) (m : KeywordMapping)
    (after : list KeywordMapping) :
  message_str event <> "" ->
  keyword_switch_enabled self = true ->
  keyword_mappings self = before ++ m :: after ->
  Forall (fun b => matches b (message_str event) = false) before ->
  matches m (message_str event) = true ->
  reply_template m = "" ->
  personas w !! persona_id m = None ->
  on_message py_format self event w =
    (Raise (ValueError (PersonaNotFound (persona_id m))), w).
Proof.
  intros Ht He Hk Hb Hm Hr Hp.
  rewrite on_message_scans, Hk by done.
  rewrite scan_mappings_first_match by done.
  rewrite spec_announce_default by done.
  unfold _switch_persona. rewrite run_bind. unfold get_persona. by rewrite Hp.
Qed.

End Scopes.

(** ** Avatars and the sync cache *)

(** X24. [delete_avatar] removes the avatar file of the persona, when there
    is one, and every cache entry that points at the persona; it
    leaves the other files and the other entries alone, and doing it a
    second time changes nothing. *)
Theorem delete_avatar_removes_file_and_entries (persona_id : string) (w : World) :
  files (delete_avatar persona_id w).2 =
    delete (get_avatar_path (qq_sync w) persona_id) (files w) /\
  (forall key,
     _last_synced_persona (qq_sync (delete_avatar persona_id w).2) !! key =
       if decide (_last_synced_persona (qq_sync w) !! key = Some persona_id)
       then None else _last_synced_persona (qq_sync w) !! key) /\
  personas (delete_avatar persona_id w).2 = personas w /\
  trace (delete_avatar persona_id w).2 = trace w /\
  files (delete_avatar persona_id (delete_avatar persona_id w).2).2 =
    files (delete_avatar persona_id w).2 /\
  _last_synced_persona (qq_sync (delete_avatar persona_id (delete_avatar persona_id w).2).2) =
    _last_synced_persona (qq_sync (delete_avatar persona_id w).2).
Proof.
  assert (F : forall w, files (delete_avatar persona_id w).2 =
                        delete (get_avatar_path (qq_sync w) persona_id) (files w)).
  { intros w0. unfold delete_avatar. cbn [snd].
    case_bool_decide as H; cbn; [done|].
    symmetry. apply delete_id. by apply eq_None_not_Some. }
  assert (Q : forall w, qq_sync (delete_avatar persona_id w).2 =
                        reset_persona_cache (qq_sync w) persona_id).
  { intros w0. unfold delete_avatar. cbn [snd]. by case_bool_decide. }
  split; [apply F|]. split.
  { intros key. rewrite Q. apply reset_persona_cache_lookup. }
  split; [unfold delete_avatar; cbn [snd]; by case_bool_decide|].
  split; [unfold delete_avatar; cbn [snd]; by case_bool_decide|].
  split.
  - rewrite !F, Q. cbn. apply delete_delete_eq.
  - rewrite !Q. apply map_eq. intros key.
    rewrite !reset_persona_cache_lookup.
    destruct (decide (_last_synced_persona (qq_sync w) !! key = Some persona_id))
      as [H|H].
    + by rewrite decide_False.
    + by rewrite decide_False.
Qed.

(** ** Viewing a persona *)

Lemma dialog_lines_period idx dialogs :
  dialog_lines (S (S idx)) dialogs = dialog_lines idx dialogs.
Proof.
  revert idx. induction dialogs as [|d rest IH]; intros idx; [done|].
  cbn [dialog_lines]. rewrite IH.
  replace (S (S idx) mod 2) with (idx mod 2); [done|].
  change (S (S idx)) with (2 + idx).
  rewrite <- (Nat.Div0.add_mod_idemp_l 2 idx 2). done.
Qed.

Section View.

Variable self : PersonaPlus.

(** X25. The view command is never refused, whoever asks and whatever the
    configuration: it sends one reply, the description of the persona
    or the store's error for an unknown id, and changes nothing.  In
    the description the preset dialogs are labelled in turn as the
    user's and the assistant's, beginning with the user's. *)
Theorem cmd_view_is_open_and_read_only
    (event : AstrMessageEvent) (persona_id : string) (w : World) :
  cmd_view self event persona_id w =
    (Ok tt,
     with_trace
       (trace w ++
        [Send (event_id event)
           match personas w !! persona_id with
           | Some persona => Plain (join LF (view_lines persona_id persona))
           | None => ErrorText (ValueError (PersonaNotFound persona_id))
           end]) w) /\
  (forall first second rest,
     dialog_lines 1 (first :: second :: rest) =
       ("[用户] " +:+ first) :: ("[助手] " +:+ second) :: dialog_lines 1 rest).
Proof.
  split.
  - unfold cmd_view. rewrite run_bind. unfold read, _has_permission.
    cbn [orb andb negb]. rewrite run_bind, run_attempt. unfold get_persona.
    by destruct (personas w !! persona_id).
  - intros first second rest. cbn [dialog_lines]. by rewrite dialog_lines_period.
Qed.

End View.

(** ** The image of an avatar command *)

Lemma find_app {A} (f : A -> bool) (l1 l2 : list A) :
  List.find f (l1 ++ l2) =
    match List.find f l1 with
    | Some x => Some x
    | None => List.find f l2
    end.
Proof.
  induction l1 as [|x l1 IH]; [done|]. cbn [app List.find].
  by destruct (f x).
Qed.

(** X26. [extract_image_component] gives the first image or file in reading
    order, a quoted reply being opened one level and no deeper; so it
    gives nothing exactly when there is no image or file there, and
    what it gives is an image or a file. *)
Theorem extract_image_component_is_first_media (messages : list Part) :
  extract_image_component messages =
    List.find is_media (flat_map one_level messages) /\
  (forall p, extract_image_component messages = Some p -> is_media p = true).
Proof.
  assert (E : extract_image_component messages =
              List.find is_media (flat_map one_level messages)).
  { induction messages as [|component rest IH]; [done|].
    cbn [extract_image_component flat_map]. rewrite find_app, <- IH.
    destruct component as [url|path|chain|]; cbn [is_media one_level List.find]; done. }
  split; [exact E|].
  intros p H. rewrite E in H. by apply find_some in H as [_ H].
Qed.

(** ** Saving an avatar *)

Section Avatars.

Variable py_format : string -> string -> result string.
Variable http_get : string -> result (nat * result string).

Lemma save_avatar_writes_only_the_avatar_file_aux
    (messages : list Part) (persona_id : string) (w : World) :
  match (save_avatar_from_event http_get messages persona_id w).1 with
  | Ok (Saved path) =>
      path = get_avatar_path (qq_sync w) persona_id /\
      exists data,
        (save_avatar_from_event http_get messages persona_id w).2 =
          with_files (<[path := data]> (files w)) w
  | Ok (Refused _) => (save_avatar_from_event http_get messages persona_id w).2 = w
  | Raise e =>
      (save_avatar_from_event http_get messages persona_id w).2 = w \/
      exists url,
        extract_image_component messages = Some (ImagePart url) /\
        http_get url = Ok (200, Raise e) /\
        (save_avatar_from_event http_get messages persona_id w).2 =
          with_files (<[get_avatar_path (qq_sync w) persona_id := ""]> (files w)) w
  end.
Proof.
  unfold save_avatar_from_event.
  destruct (extract_image_component messages) as [[url|src|chain|]|]; try done;
    rewrite run_bind; unfold read; cbv beta iota; try done.
  - destruct (nonempty url); [|done]. rewrite run_bind.
    unfold download_and_save_avatar.
    destruct (http_get url) as [[status body]|e] eqn:G; [|by left].
    destruct (status =? 200) eqn:S; cbn [negb]; [|by left].
    apply Nat.eqb_eq in S as ->.
    destruct body as [data|e]; cbv zeta.
    + unfold write_file. cbn. split; [done|]. exists data.
      by rewrite insert_insert_eq.
    + right. exists url. by rewrite G.
  - destruct (nonempty src); cbn [negb]; [|done].
    case_bool_decide; cbn [negb]; [|done].
    rewrite run_bind. unfold read_bytes.
    destruct (files w !! src) as [data|]; [|by left].
    rewrite run_bind. unfold write_file. cbn. eauto.
Qed.

(** X27. [save_avatar_from_event] touches no file but the avatar file of
    the persona, and nothing else of the world.  When it gives a path,
    that path is the avatar path and the file is there.  When it
    refuses or fails, the world is as it was, with one exception: when
    the answer has status 200 and reading its body fails, the avatar
    file has already been opened for writing and is left empty. *)
Theorem save_avatar_writes_only_the_avatar_file
    (messages : list Part) (persona_id : string) (w : World) :
  (forall other, other <> get_avatar_path (qq_sync w) persona_id ->
     files (save_avatar_from_event http_get messages persona_id w).2 !! other =
     files w !! other) /\
  (forall path,
     (save_avatar_from_event http_get messages persona_id w).1 = Ok (Saved path) ->
     path = get_avatar_path (qq_sync w) persona_id /\
     is_Some (files (save_avatar_from_event http_get messages persona_id w).2 !! path)) /\
  ((forall path,
      (save_avatar_from_event http_get messages persona_id w).1 <> Ok (Saved path)) ->
   (save_avatar_from_event http_get messages persona_id w).2 = w \/
   exists url e,
     extract_image_component messages = Some (ImagePart url) /\
     http_get url = Ok (200, Raise e) /\
     (save_avatar_from_event http_get messages persona_id w).1 = Raise e /\
     files (save_avatar_from_event http_get messages persona_id w).2 =
       <[get_avatar_path (qq_sync w) persona_id := ""]> (files w)) /\
  personas (save_avatar_from_event http_get messages persona_id w).2 = personas w /\
  qq_sync (save_avatar_from_event http_get messages persona_id w).2 = qq_sync w /\
  trace (save_avatar_from_event http_get messages persona_id w).2 = trace w.
Proof.
  pose proof (save_avatar_writes_only_the_avatar_file_aux messages persona_id w) as S.
  destruct (save_avatar_from_event http_get messages persona_id w) as [[[path|why]|e] w'];
    cbn [fst snd] in *.
  - destruct S as [-> [data ->]]. cbn. split; [|split; [|split; [|done]]].
    + intros other Hne. by apply lookup_insert_ne.
    + intros path [= <-]. split; [done|]. rewrite lookup_insert_eq. by eexists.
    + intros H. by destruct (H (get_avatar_path (qq_sync w) persona_id)).
  - subst w'. split; [done|]. split; [done|]. split; [by left|done].
  - destruct S as [->|(url & Hm & Hg & ->)].
    + split; [done|]. split; [done|]. split; [by left|done].
    + cbn. split; [|split; [done|split; [|done]]].
      * intros other Hne. by apply lookup_insert_ne.
      * intros _. right. by exists url, e.
Qed.

(** X28. What is written is what was sent: the bytes of the attached file,
    when its suffix is one of jpg, jpeg, png, gif and webp in any case,
    and the body of the answer to the request for the image, when that
    answer has status 200.  A file of another kind is refused, and an
    answer with another status is an error. *)
Theorem save_avatar_copies_the_image
    (messages : list Part) (persona_id : string) (w : World) :
  (forall src data,
     extract_image_component messages = Some (FilePart src) -> src <> "" ->
     files w !! src = Some data ->
     save_avatar_from_event http_get messages persona_id w =
       if bool_decide (lower (suffix src) ∈ [".jpg"; ".jpeg"; ".png"; ".gif"; ".webp"])
       then (Ok (Saved (get_avatar_path (qq_sync w) persona_id)),
             with_files (<[get_avatar_path (qq_sync w) persona_id := data]> (files w)) w)
       else (Ok (Refused NotAnImageFile), w)) /\
  (forall url status body,
     extract_image_component messages = Some (ImagePart url) -> url <> "" ->
     http_get url = Ok (status, Ok body) ->
     save_avatar_from_event http_get messages persona_id w =
       if status =? 200
       then (Ok (Saved (get_avatar_path (qq_sync w) persona_id)),
             with_files (<[get_avatar_path (qq_sync w) persona_id := body]> (files w)) w)
       else (Raise RuntimeError, w)).
Proof.
  unfold save_avatar_from_event. split.
  - intros src data -> Hs Hf. rewrite run_bind. unfold read. cbv beta iota.
    rewrite (proj2 (nonempty_true _) Hs). cbn [negb].
    case_bool_decide; cbn [negb]; [|done].
    rewrite run_bind. unfold read_bytes. rewrite Hf. done.
  - intros url status body -> Hu Hh. rewrite run_bind. unfold read. cbv beta iota.
    rewrite (proj2 (nonempty_true _) Hu), run_bind.
    unfold download_and_save_avatar. rewrite Hh.
    destruct (status =? 200); cbn [negb]; [|done].
    unfold write_file. cbn. by rewrite insert_insert_eq.
Qed.

Lemma sync_pushes_avatar_when_file event persona_id w o :
  is_Some (files w !! get_avatar_path (qq_sync w) persona_id) ->
  is_aiocqhttp event = true ->
  set_qq_avatar (bot event) = Some o ->
  enabled (qq_sync w) = true ->
  sync_avatar (qq_sync w) = true ->
  _last_synced_persona (qq_sync w) !! bot_key_of event <> Some persona_id ->
  exists before,
    trace (maybe_sync_profile py_format event persona_id false w).2 =
      trace w ++ before ++
      [SetQQAvatar (get_avatar_path (qq_sync w) persona_id) o].
Proof.
  unfold maybe_sync_profile.
  destruct w as [ps cs n dc sc fs q t]. destruct q as [en sn sa nt cache dir].
  destruct event as [eid aio plat sid umo msg comps sender adm [prof av]].
  cbn [is_aiocqhttp qq_sync enabled sync_nickname sync_avatar bot
       set_qq_profile set_qq_avatar _last_synced_persona files].
  intros Hf -> -> -> -> Hc.
  destruct o, sn; cbn [negb orb andb];
    sync_cases prof av; cbn; try done;
    first [ by (exists [])
          | by (eexists [_]; rewrite <- ?app_assoc) ].
Qed.

(** X29. An avatar that has been saved is pushed by the next sync of that
    persona: after [save_avatar_from_event] has given a path, a sync
    for a bot identity that is not yet on the persona, with syncing
    enabled, avatar syncing on and an adapter that has the avatar call, ends with the
    push of that very file. *)
Theorem saved_avatar_is_pushed_by_next_sync
    (messages : list Part) (event : AstrMessageEvent) (persona_id path : string)
    (o : outcome) (w : World) :
  (save_avatar_from_event http_get messages persona_id w).1 = Ok (Saved path) ->
  is_aiocqhttp event = true ->
  set_qq_avatar (bot event) = Some o ->
  enabled (qq_sync w) = true ->
  sync_avatar (qq_sync w) = true ->
  _last_synced_persona (qq_sync w) !! bot_key_of event <> Some persona_id ->
  exists before,
    trace (maybe_sync_profile py_format event persona_id false
             (save_avatar_from_event http_get messages persona_id w).2).2 =
      trace w ++ before ++ [SetQQAvatar path o].
Proof.
  intros Hs Ha Hv Hen Hsa Hc.
  pose proof (save_avatar_writes_only_the_avatar_file_aux messages persona_id w) as S.
  rewrite Hs in S. destruct S as [-> [data ->]].
  apply (sync_pushes_avatar_when_file event persona_id
           (with_files (<[get_avatar_path (qq_sync w) persona_id := data]> (files w)) w));
    try done.
  cbn. rewrite lookup_insert_eq. by eexists.
Qed.

End Avatars.

(** ** The nickname *)







Section Nickname.

Variable py_format : string -> string -> result string.



End Nickname.

(** * Runs of the further properties *)

Lemma matches_is_containment_witness :
  matches hello_rule "Say HELLO" = true /\ matches hell_rule "Say HELLO" = false.
Proof.
  split; [|vm_compute; reflexivity].
  apply (proj2 (matches_is_containment hello_rule "Say HELLO")).
  exists (lower "Say "), "". vm_compute; reflexivity.
Defined.

Lemma extract_reads_only_and_prefers_text_witness :
  (_extract_persona_from_event (admin_event " hi ") file_world).1 = Ok " hi ".
Proof.
  destruct (extract_reads_only_and_prefers_text (admin_event " hi ") file_world)
    as (_ & H & _).
  apply H. vm_compute; discriminate.
Defined.

Lemma extract_first_file_decides_witness :
  _extract_persona_from_event file_event crlf_world =
    (Ok ("You are" +:+ LF +:+ "a cat." +:+ LF), crlf_world) /\
  _extract_persona_from_event file_event latin1_world =
    (Raise (ValueError UndecodableText), latin1_world).
Proof.
  assert (Hy : lower (suffix "notes/persona.TXT") ∈ [".txt"; ".md"; ".json"])
    by (apply (bool_decide_unpack _); vm_compute; exact I).
  split.
  - destruct (extract_first_file_decides file_event crlf_world
                [OtherComponent; File ""] "notes/persona.TXT" [File "notes/other.md"])
      as (_ & _ & _ & H);
      [vm_compute; reflexivity | reflexivity | repeat constructor | discriminate |].
    rewrite (H Hy ("You are" +:+ CR +:+ LF +:+ "a cat." +:+ CR));
      [ vm_compute; reflexivity | vm_compute; reflexivity
      | vm_compute; reflexivity | vm_compute; discriminate ].
  - destruct (extract_first_file_decides file_event latin1_world
                [OtherComponent; File ""] "notes/persona.TXT" [File "notes/other.md"])
      as (_ & _ & H & _);
      [vm_compute; reflexivity | reflexivity | repeat constructor | discriminate |].
    apply (H Hy ("caf" +:+ String "233" ""));
      [vm_compute; reflexivity | vm_compute; reflexivity].
Defined.

Lemma create_persona_refuses_taken_id_witness :
  _create_persona "bot_a" "You are another bot." [] None synced_world =
    (Raise (ValueError (PersonaExists "bot_a")), synced_world).
Proof.
  apply (proj1 (create_persona_refuses_taken_id "bot_a" "You are another bot." []
                  None synced_world)).
  exists bot_a. vm_compute; reflexivity.
Defined.

Lemma wait_for_create_never_raises_witness :
  wait_for_create Json.loads Json.type_name (admin_event "create") "bot_b"
    (Failed OSError) synced_world =
    (Ok tt,
     with_trace (trace synced_world ++
                 [Send (event_id (admin_event "create")) (CreateFlowError OSError)])
       synced_world).
Proof.
  apply (proj2 (wait_for_create_never_raises Json.loads Json.type_name
                  (admin_event "create") "bot_b" (Failed OSError) synced_world));
    [reflexivity|discriminate].
Defined.

Lemma maybe_sync_profile_needs_adapter_witness :
  maybe_sync_profile Format.format webchat_event "bot_a" true unsynced_world =
    (Ok tt, unsynced_world).
Proof.
  apply maybe_sync_profile_needs_adapter. left. reflexivity.
Defined.

Lemma forced_sync_always_pushes_nickname_witness :
  _last_synced_persona
    (qq_sync (maybe_sync_profile Format.format (admin_event "hi") "bot_b" true
                synced_world).2)
    !! bot_key_of (admin_event "hi") = Some "bot_b".
Proof.
  destruct (forced_sync_always_pushes_nickname Format.format (admin_event "hi")
              "bot_b" synced_world Returns) as [_ H];
    [reflexivity|reflexivity|].
  apply H. reflexivity.
Defined.

Lemma no_avatar_push_without_file_witness :
  trace (maybe_sync_profile Format.format (admin_event "hi") "bot_a" true
           synced_world).2 = trace synced_world \/
  exists o,
    trace (maybe_sync_profile Format.format (admin_event "hi") "bot_a" true
             synced_world).2 =
      trace synced_world ++
      [SetQQProfile (format_nickname Format.format (qq_sync synced_world) "bot_a") o].
Proof.
  apply no_avatar_push_without_file. vm_compute; reflexivity.
Defined.

Lemma switch_in_conversation_scope_witness :
  exists pushes,
    trace (_switch_persona Format.format (scoped_plugin "conversation")
             (admin_event "hi") "bot_a" None busy_world).2 =
      UpdateConversation "aiocqhttp:GroupMessage:42" "conv-0" "bot_a" true :: pushes.
Proof.
  destruct (switch_in_conversation_scope Format.format (scoped_plugin "conversation")
              (admin_event "hi") "bot_a" None busy_world)
    as (pushes & _ & _ & T & _);
    [reflexivity | exists bot_a; vm_compute; reflexivity |].
  exists pushes. exact T.
Defined.

Lemma switch_in_session_scope_witness :
  exists pushes,
    trace (_switch_persona Format.format (scoped_plugin "session")
             (admin_event "hi") "bot_a" None busy_world).2 =
      SaveConfig (Some "aiocqhttp:GroupMessage:42") ::
      UpdateConversation "aiocqhttp:GroupMessage:42" "conv-0" "bot_a" true :: pushes.
Proof.
  destruct (switch_in_session_scope Format.format (scoped_plugin "session")
              (admin_event "hi") "bot_a" None busy_world)
    as (pushes & _ & _ & T & _);
    [reflexivity | exists bot_a; vm_compute; reflexivity |].
  exists pushes. exact T.
Defined.

Lemma switch_in_global_scope_witness :
  exists pushes,
    trace (_switch_persona Format.format (scoped_plugin "global")
             (admin_event "hi") "bot_a" None busy_world).2 =
      SaveConfig None ::
      UpdateConversation "aiocqhttp:GroupMessage:42" "conv-0" "bot_a" true :: pushes.
Proof.
  destruct (switch_in_global_scope Format.format (scoped_plugin "global")
              (admin_event "hi") "bot_a" None busy_world)
    as (pushes & _ & _ & T & _);
    [reflexivity | exists bot_a; vm_compute; reflexivity |].
  exists pushes. exact T.
Defined.

Lemma switch_in_unknown_scope_only_syncs_witness :
  _switch_persona Format.format (scoped_plugin "user") (admin_event "hi") "bot_a"
    (Some "ok") busy_world =
    (Ok (reply_of_announce (Some "ok")),
     (maybe_sync_profile Format.format (admin_event "hi") "bot_a" false busy_world).2).
Proof.
  apply switch_in_unknown_scope_only_syncs;
    [discriminate | discriminate | discriminate
    | exists bot_a; vm_compute; reflexivity].
Defined.

Lemma on_message_does_not_fall_through_witness :
  matches (KeywordMapping_new "hell" "grumpy") "hello" = true /\
  personas greeter_world !! "grumpy" = Some bot_a /\
  on_message Format.format ghost_plugin (admin_event "hello") greeter_world =
    (Raise (ValueError (PersonaNotFound "ghost")), greeter_world).
Proof.
  split; [vm_compute; reflexivity|]. split; [vm_compute; reflexivity|].
  apply (on_message_does_not_fall_through Format.format ghost_plugin
           (admin_event "hello") greeter_world []
           (KeywordMapping_new "hello" "ghost") [KeywordMapping_new "hell" "grumpy"]).
  - discriminate.
  - reflexivity.
  - reflexivity.
  - constructor.
  - vm_compute; reflexivity.
  - reflexivity.
  - vm_compute; reflexivity.
Defined.

Lemma extract_image_component_is_first_media_witness :
  extract_image_component quoted_image = Some (FilePart "tmp/cat.PNG") /\
  is_media (FilePart "tmp/cat.PNG") = true.
Proof.
  assert (E : extract_image_component quoted_image = Some (FilePart "tmp/cat.PNG"))
    by (vm_compute; reflexivity).
  split; [exact E|].
  exact (proj2 (extract_image_component_is_first_media quoted_image) _ E).
Defined.

Lemma save_avatar_writes_only_the_avatar_file_witness :
  is_Some (files (save_avatar_from_event no_network quoted_image "bot_a" avatar_world).2
             !! "data/avatars/bot_a.jpg") /\
  files (save_avatar_from_event no_network quoted_image "bot_a" avatar_world).2
    !! "tmp/cat.PNG" = files avatar_world !! "tmp/cat.PNG" /\
  save_avatar_from_event broken_body one_image "bot_a" old_avatar_world =
    (Raise OSError,
     with_files (<["data/avatars/bot_a.jpg" := ""]> (files old_avatar_world))
       old_avatar_world).
Proof.
  destruct (save_avatar_writes_only_the_avatar_file no_network quoted_image "bot_a"
              avatar_world) as (O & H & _).
  destruct (H "data/avatars/bot_a.jpg") as (_ & S); [vm_compute; reflexivity|].
  split; [exact S|]. split; [apply O; discriminate|].
  vm_compute; reflexivity.
Defined.

Lemma save_avatar_copies_the_image_witness :
  save_avatar_from_event no_network quoted_image "bot_a" avatar_world =
    (Ok (Saved "data/avatars/bot_a.jpg"),
     with_files (<["data/avatars/bot_a.jpg" := "image bytes"]> (files avatar_world))
       avatar_world).
Proof.
  rewrite (proj1 (save_avatar_copies_the_image no_network quoted_image "bot_a"
                    avatar_world) "tmp/cat.PNG" "image bytes");
    [vm_compute; reflexivity | vm_compute; reflexivity | discriminate
    | vm_compute; reflexivity].
Defined.

Lemma saved_avatar_is_pushed_by_next_sync_witness :
  exists before,
    trace (maybe_sync_profile Format.format (admin_event "hi") "bot_a" false
             (save_avatar_from_event no_network quoted_image "bot_a" avatar_world).2).2 =
      trace avatar_world ++ before ++ [SetQQAvatar "data/avatars/bot_a.jpg" Returns].
Proof.
  apply (saved_avatar_is_pushed_by_next_sync Format.format no_network quoted_image
           (admin_event "hi") "bot_a" "data/avatars/bot_a.jpg" Returns avatar_world);
    [vm_compute; reflexivity | reflexivity | reflexivity | reflexivity | reflexivity
    | vm_compute; discriminate].
Defined.

